(** * ANPR web client: a shallow embedding of [static/js/script.js]

    The script drives a small page: an image is chosen or a camera frame is
    captured, posted to [/upload], and the JSON answer is rendered into the
    [plateNumber] element, the result details, the download button and a
    bounded detection history mirrored in [localStorage].

    The embedding keeps the shape of the script.  The page is a finite map
    from element ids to elements, every handler is a computation in a small
    state-and-exception monad (so that [try]/[catch]/[finally] read as in
    the source), and everything the browser or the server contributes (the
    HTTP response, the clock, the captured blob, a store that refuses a
    write) is an explicit argument of the handler or a part of the state.
    Numbers are IEEE doubles, and the values of an answer are JavaScript
    values, converted to text the way the language does. *)

From Stdlib Require Import ZArith QArith PrimFloat FloatOps SpecFloat Uint63 Ascii
  String List Lia.
From stdpp Require Import base option gmap strings list fin_maps pretty.

Set Warnings "-inexact-float,-register-all".

Close Scope Q_scope.
Open Scope string_scope.
Open Scope list_scope.

(** ** JavaScript values used by the script *)

Module Js.

(** The double quote and the line feed, for the HTML fragments the script
    writes. *)
Definition dq : string := String "034"%char "".
Definition nl : string := String "010"%char "".

(** [s.includes(t)]: [t] occurs in [s] as a contiguous substring. *)
Fixpoint includes (s t : string) : bool :=
  String.prefix t s ||
  match s with
  | EmptyString => false
  | String _ s' => includes s' t
  end.

(** A string in a boolean position: only the empty string is falsy. *)
Definition truthy_string (s : string) : bool :=
  match s with
  | EmptyString => false
  | String _ _ => true
  end.

(** Numbers are IEEE 754 doubles.  A number in a boolean position is falsy
    exactly when it is a zero or NaN. *)
Definition number : Type := float.

Definition truthy_number (x : number) : bool :=
  negb (PrimFloat.is_zero x || PrimFloat.is_nan x).

(** The exact value of a finite double with mantissa [m] and exponent [e]
    is [m * 2^e], here the fraction [num_of m e / den_of e]. *)
Definition num_of (m : positive) (e : Z) : Z :=
  if (e <? 0)%Z then Z.pos m else (Z.pos m * 2 ^ e)%Z.

Definition den_of (e : Z) : Z := if (e <? 0)%Z then (2 ^ (- e))%Z else 1%Z.

(** The integer nearest to [p / q] for a positive [q], halves going up. *)
Definition round_half_up (p q : Z) : Z := ((2 * p + q) / (2 * q))%Z.

Definition float_of_Z (z : Z) : float :=
  if (z <? 0)%Z then PrimFloat.opp (PrimFloat.of_uint63 (Uint63.of_Z (- z)))
  else PrimFloat.of_uint63 (Uint63.of_Z z).

(** [Math.round(x)]: the nearest integer, halves going up; an integral or
    non-finite [x] is returned as it is, and a result of zero keeps the
    sign of [x]. *)
Definition Math_round (x : number) : number :=
  match Prim2SF x with
  | S754_finite s m e =>
      if (0 <=? e)%Z then x
      else
        let p := if s then (- Z.pos m)%Z else Z.pos m in
        let z := round_half_up p (2 ^ (- e)) in
        if (z =? 0)%Z then (if s then (-0)%float else 0%float)
        else float_of_Z z
  | _ => x
  end.

Definition digits (z : Z) : string := pretty z.

Fixpoint zeros (n : nat) : string :=
  match n with
  | O => ""
  | S n' => String "0" (zeros n')
  end.

Definition substring_from (i : nat) (s : string) : string :=
  String.substring i (String.length s - i) s.

(** The decimal exponent [n] of a positive fraction [p / q]:
    [10^(n-1) <= p / q < 10^n]. *)
Fixpoint exponent_below (fuel : nat) (p q : Z) (j : Z) : Z :=
  match fuel with
  | O => j
  | S fuel' =>
      if (q <=? p * 10 ^ j)%Z then (1 - j)%Z
      else exponent_below fuel' p q (j + 1)
  end.

Definition decimal_exponent (p q : Z) : Z :=
  if (q <=? p)%Z then Z.of_nat (String.length (digits (p / q)))
  else exponent_below 400 p q 1.

(** [s * 10^sh] compared with the fraction [p / q]. *)
Definition scaled_le (s sh p q : Z) : bool :=
  if (0 <=? sh)%Z then (s * 10 ^ sh * q <=? p)%Z
  else (s * q <=? p * 10 ^ (- sh))%Z.

Definition scaled_lt (s sh p q : Z) : bool :=
  if (0 <=? sh)%Z then (s * 10 ^ sh * q <? p)%Z
  else (s * q <? p * 10 ^ (- sh))%Z.

(** The distance between [s * 10^sh] and [p / q], in a unit that is the
    same for every [s]. *)
Definition distance (s sh p q : Z) : Z :=
  if (0 <=? sh)%Z then Z.abs (s * 10 ^ sh * q - p)
  else Z.abs (s * q - p * 10 ^ (- sh)).

(** The shortest decimal [s * 10^(n-k)] that reads back as the double
    [m * 2^e], which lies between [10^(n-1)] and [10^n]: its digits [s],
    their number [k], and its exponent.  A decimal reads back as the
    double when it lies in the interval of the reals that round to it,
    which reaches half way to the neighbouring doubles and contains its
    ends when [m] is even; of two decimals of the same length the nearer
    is taken, the even one at equal distance. *)
Fixpoint shortest (fuel : nat) (k : Z) (m : positive) (e n : Z)
    : Z * Z * Z :=
  let p := num_of m e in
  let q := den_of e in
  let u := if (e <? 0)%Z then 1%Z else (2 ^ e)%Z in
  let boundary := (Z.pos m =? 2 ^ 52)%Z && (-1074 <? e)%Z in
  let lo := (4 * p - (if boundary then u else 2 * u))%Z in
  let hi := (4 * p + 2 * u)%Z in
  let q4 := (4 * q)%Z in
  let sh := (n - k)%Z in
  let s_lo := if (0 <=? sh)%Z then (p / (q * 10 ^ sh))%Z
              else (p * 10 ^ (- sh) / q)%Z in
  let s_hi := (s_lo + 1)%Z in
  let inside s :=
    if Z.even (Z.pos m)
    then negb (scaled_lt s sh lo q4) && scaled_le s sh hi q4
    else negb (scaled_le s sh lo q4) && scaled_lt s sh hi q4 in
  let ok_lo := inside s_lo && (10 ^ (k - 1) <=? s_lo)%Z in
  let ok_hi := inside s_hi in
  let pick :=
    if ok_lo && ok_hi then
      let d_lo := distance s_lo sh p q in
      let d_hi := distance s_hi sh p q in
      if (d_lo <? d_hi)%Z then Some s_lo
      else if (d_hi <? d_lo)%Z then Some s_hi
      else if Z.even s_lo then Some s_lo else Some s_hi
    else if ok_lo then Some s_lo
    else if ok_hi then Some s_hi
    else None in
  match pick, fuel with
  | Some s, _ =>
      if (s =? 10 ^ k)%Z then (10 ^ (k - 1), k, n + 1)%Z else (s, k, n)
  | None, S fuel' => shortest fuel' (k + 1) m e n
  | None, O => (s_lo, k, n)
  end.

(** Trailing zeros are not part of the digits. *)
Fixpoint strip_zeros (fuel : nat) (s k : Z) : Z * Z :=
  match fuel with
  | O => (s, k)
  | S fuel' =>
      if (1 <? k)%Z && (s mod 10 =? 0)%Z
      then strip_zeros fuel' (s / 10) (k - 1)
      else (s, k)
  end.

(** [Number::toString] of the positive double [m * 2^e]: plain digits for
    an exponent up to 21, a leading [0.] down to six zeros, and the
    exponent notation otherwise. *)
Definition Number_toString_pos (m : positive) (e : Z) : string :=
  let n0 := decimal_exponent (num_of m e) (den_of e) in
  let '(s0, k0, n) := shortest 20 1 m e n0 in
  let '(s, k) := strip_zeros 20 s0 k0 in
  let ds := digits s in
  if (k <=? n)%Z && (n <=? 21)%Z then ds +:+ zeros (Z.to_nat (n - k))
  else if (0 <? n)%Z && (n <=? 21)%Z then
    String.substring 0 (Z.to_nat n) ds +:+ "."
      +:+ substring_from (Z.to_nat n) ds
  else if (-6 <? n)%Z && (n <=? 0)%Z then
    "0." +:+ zeros (Z.to_nat (- n)) +:+ ds
  else
    let ex := (n - 1)%Z in
    (if (k =? 1)%Z then ds
     else String.substring 0 1 ds +:+ "." +:+ substring_from 1 ds)
    +:+ "e" +:+ (if (ex <? 0)%Z then "-" else "+") +:+ digits (Z.abs ex).

(** [String(x)] for a number [x]. *)
Definition Number_toString (x : number) : string :=
  match Prim2SF x with
  | S754_nan => "NaN"
  | S754_zero _ => "0"
  | S754_infinity s => if s then "-Infinity" else "Infinity"
  | S754_finite s m e =>
      (if s then "-" else "") +:+ Number_toString_pos m e
  end.

(** [x.toFixed(2)]: for a magnitude below [10^21] the exact value is
    rounded to the nearest hundredth (halves going up) and printed with two
    decimals; from [10^21] on the number is printed as by [String(x)]. *)
Definition toFixed2 (x : number) : string :=
  match Prim2SF x with
  | S754_nan => "NaN"
  | S754_infinity s => if s then "-Infinity" else "Infinity"
  | S754_zero _ => "0.00"
  | S754_finite s m e =>
      let p := num_of m e in
      let q := den_of e in
      (if s then "-" else "") +:+
      (if (10 ^ 21 * q <=? p)%Z then Number_toString_pos m e
       else
         let n := round_half_up (100 * p) q in
         let ds := digits n in
         let ds := if (String.length ds <=? 2)%nat
                   then zeros (3 - String.length ds) +:+ ds else ds in
         String.substring 0 (String.length ds - 2) ds +:+ "."
           +:+ substring_from (String.length ds - 2) ds)
  end.

(** The values an answer can hold: those of JSON, and [undefined] for a
    property that is missing. *)
Inductive value :=
| Undefined
| Null
| Boolean (b : bool)
| Number (x : number)
| Str (s : string)
| Array (items : list value)
| Object (properties : list (string * value)).

(** A value in a boolean position. *)
Definition truthy (v : value) : bool :=
  match v with
  | Undefined | Null => false
  | Boolean b => b
  | Number x => truthy_number x
  | Str s => truthy_string s
  | Array _ | Object _ => true
  end.

(** [v !== s] for a string [s]: only that very string is equal to it. *)
Definition differs_from (v : value) (s : string) : bool :=
  match v with
  | Str t => negb (String.eqb t s)
  | _ => true
  end.

Fixpoint join (sep : string) (l : list string) : string :=
  match l with
  | [] => ""
  | [s] => s
  | s :: l' => s +:+ sep +:+ join sep l'
  end.

Definition has_property (key : string) (properties : list (string * value))
    : bool :=
  existsb (λ kv, String.eqb (fst kv) key) properties.

(** [String(v)]; [None] is the [TypeError] for an object that cannot be
    converted.  An array is its elements joined by commas, [null] and
    [undefined] elements being empty; a plain object is
    ["[object Object]"], unless a property of its own named [toString]
    hides the inherited method, which leaves nothing to call. *)
Fixpoint ToString (v : value) : option string :=
  match v with
  | Undefined => Some "undefined"
  | Null => Some "null"
  | Boolean b => Some (if b then "true" else "false")
  | Number x => Some (Number_toString x)
  | Str s => Some s
  | Array items =>
      join "," <$>
        (fix elements (l : list value) : option (list string) :=
           match l with
           | [] => Some []
           | e :: l' =>
               match (match e with
                      | Undefined | Null => Some ""
                      | _ => ToString e
                      end), elements l' with
               | Some s, Some ss => Some (s :: ss)
               | _, _ => None
               end
           end) items
  | Object properties =>
      if has_property "toString" properties then None
      else Some "[object Object]"
  end.

(** The text [el.textContent = v] writes: [null] and [undefined] clear the
    element, every other value is converted by [ToString]. *)
Definition text_of (v : value) : option string :=
  match v with
  | Undefined | Null => Some ""
  | _ => ToString v
  end.

End Js.

(** ** The page *)

(** A [File] or [Blob]: a name and its bytes. *)
Record File := { file_name : string; file_data : string }.

(** A camera stream, with the ids of its tracks. *)
Record MediaStream := { getTracks : list nat }.

(** The properties of an element the script reads or writes.  No element
    is written through both [textContent] and [innerHTML]. *)
Record Element := {
  textContent : string;
  innerHTML : string;
  disabled : bool;
  display : string;            (* style.display *)
  classList : gset string;
  src : string;
  files : list File;           (* of a file input; [value = ""] empties it *)
  srcObject : option MediaStream
}.

Global Instance Element_inhabited : Inhabited Element :=
  populate {| textContent := ""; innerHTML := ""; disabled := false;
              display := ""; classList := ∅; src := "";
              files := []; srcObject := None |}.

Definition set_textContent (v : string) (e : Element) : Element :=
  {| textContent := v; innerHTML := innerHTML e; disabled := disabled e;
     display := display e; classList := classList e; src := src e;
     files := files e; srcObject := srcObject e |}.

Definition set_innerHTML (v : string) (e : Element) : Element :=
  {| textContent := textContent e; innerHTML := v; disabled := disabled e;
     display := display e; classList := classList e; src := src e;
     files := files e; srcObject := srcObject e |}.

Definition set_disabled (v : bool) (e : Element) : Element :=
  {| textContent := textContent e; innerHTML := innerHTML e; disabled := v;
     display := display e; classList := classList e; src := src e;
     files := files e; srcObject := srcObject e |}.

Definition set_display (v : string) (e : Element) : Element :=
  {| textContent := textContent e; innerHTML := innerHTML e;
     disabled := disabled e; display := v; classList := classList e;
     src := src e; files := files e; srcObject := srcObject e |}.

Definition set_classList (v : gset string) (e : Element) : Element :=
  {| textContent := textContent e; innerHTML := innerHTML e;
     disabled := disabled e; display := display e; classList := v;
     src := src e; files := files e; srcObject := srcObject e |}.

Definition set_src (v : string) (e : Element) : Element :=
  {| textContent := textContent e; innerHTML := innerHTML e;
     disabled := disabled e; display := display e; classList := classList e;
     src := v; files := files e; srcObject := srcObject e |}.

Definition set_files (v : list File) (e : Element) : Element :=
  {| textContent := textContent e; innerHTML := innerHTML e;
     disabled := disabled e; display := display e; classList := classList e;
     src := src e; files := v; srcObject := srcObject e |}.

Definition set_srcObject (v : option MediaStream) (e : Element) : Element :=
  {| textContent := textContent e; innerHTML := innerHTML e;
     disabled := disabled e; display := display e; classList := classList e;
     src := src e; files := files e; srcObject := v |}.

(** [classList.add] and [classList.remove]. *)
Definition classList_add (c : string) (e : Element) : Element :=
  set_classList ({[ c ]} ∪ classList e) e.

Definition classList_remove (c : string) (e : Element) : Element :=
  set_classList (classList e ∖ {[ c ]}) e.

(** ** What the script exchanges with its environment *)

(** The object of an [/upload] answer, as far as the script reads it.
    [number_plate] is whatever value the body holds under that name,
    [Js.Undefined] when it holds none; [confidence] is a number when it is
    there ([None]: missing or [null]). *)
Record Payload := {
  number_plate : Js.value;
  confidence : option Js.number
}.

(** What [res.json()] makes of a body.  A JSON value that is neither an
    object nor [null] has neither property and behaves as the object with
    both fields missing. *)
Inductive Body :=
| BodyNotJson
| BodyNull
| BodyObject (data : Payload).

Record Response := { status : Z; body : Body }.

(** [res.ok]: the status is in the range 200-299. *)
Definition ok (res : Response) : bool :=
  (200 <=? status res)%Z && (status res <=? 299)%Z.

(** [fetch] rejects (network failure) or resolves with a response. *)
Inductive FetchOutcome :=
| FetchRejected
| FetchResolved (res : Response).

(** A multipart POST: the single part [file] with its file name. *)
Record Request := {
  url : string;
  method : string;
  part_filename : string;
  part_data : string
}.

Inductive JsError :=
| HttpError (status : Z)       (* thrown by the script on [!res.ok] *)
| NetworkError                 (* [fetch] rejected *)
| SyntaxError                  (* [res.json()] rejected *)
| TypeError                    (* property of [null], a missing blob, or a
                                  value that cannot be converted to text *)
| QuotaExceededError.          (* [localStorage.setItem] refused *)

Record Notification := { message : string; type : string }.

(** An entry of the history, with the plate as the answer held it. *)
Record HistoryItem := {
  plate : Js.value;
  item_confidence : option Js.number;
  processTime : Js.number;
  timestamp : string
}.

(** A file handed to the user by [a.click()] on a blob URL. *)
Record Download := {
  download : string;           (* the [download] attribute: the file name *)
  blob_text : string;
  blob_type : string
}.

(** ** The state of the page and of the script's globals

    [localStorage] maps a key to the stored text; the text under
    ['anprHistory'] is the JSON form of a history array and is kept as that
    array.  [storageBlocked] tells whether the store refuses the next write
    (its quota is used up, or the site may not store): [setItem] throws
    then.  [notifications] are the children appended to the notification
    container, oldest first (their timed removal is not part of the
    model); [network] logs the requests issued by [fetch]. *)
Record State := {
  document : gmap string Element;
  cameraStream : option MediaStream;
  detectionHistory : list HistoryItem;
  localStorage : gmap string (list HistoryItem);
  storageBlocked : bool;
  notifications : list Notification;
  network : list Request;
  downloads : list Download;
  console : list JsError;
  stoppedTracks : list nat
}.

Definition with_document (f : gmap string Element → gmap string Element)
    (st : State) : State :=
  {| document := f (document st); cameraStream := cameraStream st;
     detectionHistory := detectionHistory st;
     localStorage := localStorage st; storageBlocked := storageBlocked st;
     notifications := notifications st;
     network := network st; downloads := downloads st;
     console := console st; stoppedTracks := stoppedTracks st |}.

Definition with_cameraStream (v : option MediaStream) (st : State) : State :=
  {| document := document st; cameraStream := v;
     detectionHistory := detectionHistory st;
     localStorage := localStorage st; storageBlocked := storageBlocked st;
     notifications := notifications st;
     network := network st; downloads := downloads st;
     console := console st; stoppedTracks := stoppedTracks st |}.

Definition with_detectionHistory (v : list HistoryItem) (st : State) : State :=
  {| document := document st; cameraStream := cameraStream st;
     detectionHistory := v;
     localStorage := localStorage st; storageBlocked := storageBlocked st;
     notifications := notifications st;
     network := network st; downloads := downloads st;
     console := console st; stoppedTracks := stoppedTracks st |}.

Definition with_localStorage
    (f : gmap string (list HistoryItem) → gmap string (list HistoryItem))
    (st : State) : State :=
  {| document := document st; cameraStream := cameraStream st;
     detectionHistory := detectionHistory st;
     localStorage := f (localStorage st);
     storageBlocked := storageBlocked st;
     notifications := notifications st;
     network := network st; downloads := downloads st;
     console := console st; stoppedTracks := stoppedTracks st |}.

Definition with_storageBlocked (v : bool) (st : State) : State :=
  {| document := document st; cameraStream := cameraStream st;
     detectionHistory := detectionHistory st;
     localStorage := localStorage st; storageBlocked := v;
     notifications := notifications st;
     network := network st; downloads := downloads st;
     console := console st; stoppedTracks := stoppedTracks st |}.

Definition with_notifications (f : list Notification → list Notification)
    (st : State) : State :=
  {| document := document st; cameraStream := cameraStream st;
     detectionHistory := detectionHistory st;
     localStorage := localStorage st; storageBlocked := storageBlocked st;
     notifications := f (notifications st);
     network := network st; downloads := downloads st;
     console := console st; stoppedTracks := stoppedTracks st |}.

Definition with_network (f : list Request → list Request)
    (st : State) : State :=
  {| document := document st; cameraStream := cameraStream st;
     detectionHistory := detectionHistory st;
     localStorage := localStorage st; storageBlocked := storageBlocked st;
     notifications := notifications st;
     network := f (network st); downloads := downloads st;
     console := console st; stoppedTracks := stoppedTracks st |}.

Definition with_downloads (f : list Download → list Download)
    (st : State) : State :=
  {| document := document st; cameraStream := cameraStream st;
     detectionHistory := detectionHistory st;
     localStorage := localStorage st; storageBlocked := storageBlocked st;
     notifications := notifications st;
     network := network st; downloads := f (downloads st);
     console := console st; stoppedTracks := stoppedTracks st |}.

Definition with_console (f : list JsError → list JsError)
    (st : State) : State :=
  {| document := document st; cameraStream := cameraStream st;
     detectionHistory := detectionHistory st;
     localStorage := localStorage st; storageBlocked := storageBlocked st;
     notifications := notifications st;
     network := network st; downloads := downloads st;
     console := f (console st); stoppedTracks := stoppedTracks st |}.

Definition with_stoppedTracks (f : list nat → list nat)
    (st : State) : State :=
  {| document := document st; cameraStream := cameraStream st;
     detectionHistory := detectionHistory st;
     localStorage := localStorage st; storageBlocked := storageBlocked st;
     notifications := notifications st;
     network := network st; downloads := downloads st;
     console := console st; stoppedTracks := f (stoppedTracks st) |}.

(** [document.getElementById(id)] (and [querySelector] for the one class
    selector the script uses).  The page itself, [index.html], is a
    parameter of the model: every element the script names is taken to
    exist. *)
Definition elem (id : string) (st : State) : Element := document st !!! id.

Definition update (id : string) (f : Element → Element) (st : State) : State :=
  with_document (λ d, <[ id := f (d !!! id) ]> d) st.

(** ** Computations: state and exceptions *)

Definition Script (A : Type) : Type := State → (JsError + A) * State.

Global Instance Script_ret : MRet Script := λ A a st, (inr a, st).

Global Instance Script_bind : MBind Script := λ A B k m st,
  match m st with
  | (inl e, st') => (inl e, st')
  | (inr a, st') => k a st'
  end.

Definition throw {A} (e : JsError) : Script A := λ st, (inl e, st).

Definition modify (f : State → State) : Script unit := λ st, (inr (), f st).

Definition gets {A} (f : State → A) : Script A := λ st, (inr (f st), st).

(** [try { body } catch (err) { handler err } finally { fin }]. *)
Definition try_catch_finally (body : Script unit)
    (handler : JsError → Script unit) (fin : Script unit) : Script unit :=
  λ st,
    let r := match body st with
             | (inl e, st') => handler e st'
             | (inr (), st') => (inr (), st')
             end in
    match fin r.2 with
    | (inl e, st') => (inl e, st')
    | (inr (), st') => (r.1, st')
    end.

(** The page after a handler has run to completion; an exception that
    escapes an [async] handler only rejects its promise. *)
Definition exec (m : Script unit) (st : State) : State := (m st).2.

Definition getElementById (id : string) : Script Element := gets (elem id).

Definition set (id : string) (f : Element → Element) : Script unit :=
  modify (update id f).

Definition console_error (e : JsError) : Script unit :=
  modify (with_console (λ l, l ++ [e])).

(** ** The functions of the script *)

(** [showNotification(message, type)]: a [div] with the message is appended
    to the notification container. *)
Definition showNotification (msg ty : string) : Script unit :=
  modify (with_notifications
            (λ l, l ++ [ {| message := msg; type := ty |} ])).

Definition no_history_html : string :=
  "<p class=" +:+ Js.dq +:+ "no-history" +:+ Js.dq
    +:+ ">No detection history yet</p>".

(** The template of one entry; [text] is [`${item.plate}`]. *)
Definition history_item_template (text time : string) : string :=
  Js.nl +:+ "        <div class=" +:+ Js.dq +:+ "history-item" +:+ Js.dq +:+ ">"
  +:+ Js.nl +:+ "            <span class=" +:+ Js.dq +:+ "history-plate"
  +:+ Js.dq +:+ ">" +:+ text +:+ "</span>"
  +:+ Js.nl +:+ "            <span class=" +:+ Js.dq +:+ "history-time"
  +:+ Js.dq +:+ ">" +:+ time +:+ "</span>"
  +:+ Js.nl +:+ "        </div>"
  +:+ Js.nl +:+ "    ".

(** The callback of [detectionHistory.map]; [None] when the plate of the
    entry cannot be converted to text. *)
Definition history_item_html (item : HistoryItem) : option string :=
  match Js.ToString (plate item) with
  | Some text => Some (history_item_template text (timestamp item))
  | None => None
  end.

(** [array.map(f)] for a callback that may throw: the first entry that
    throws ends it. *)
Fixpoint map_items (f : HistoryItem → option string) (l : list HistoryItem)
    : option (list string) :=
  match l with
  | [] => Some []
  | x :: l' =>
      match f x with
      | Some s =>
          match map_items f l' with
          | Some ss => Some (s :: ss)
          | None => None
          end
      | None => None
      end
  end.

(** [loadDetectionHistory()]. *)
Definition loadDetectionHistory : Script unit :=
  history ← gets detectionHistory;
  if decide (length history = 0)
  then set "historyList" (set_innerHTML no_history_html)
  else
    match map_items history_item_html history with
    | Some items => set "historyList" (set_innerHTML (Js.join "" items))
    | None => throw TypeError
    end.

(** [addToHistory(plate, confidence, processTime)]; [now] is what
    [new Date().toLocaleString()] returns at the call. *)
Definition addToHistory (p : Js.value) (c : option Js.number)
    (t : Js.number) (now : string) : Script unit :=
  let historyItem :=
    {| plate := p; item_confidence := c; processTime := t;
       timestamp := now |} in
  (* detectionHistory.unshift(historyItem) *)
  modify (λ st, with_detectionHistory (historyItem :: detectionHistory st) st);;
  (* Keep only last 10 items *)
  history ← gets detectionHistory;
  (if decide (10 < length history)
   then modify (with_detectionHistory (take 10 history))
   else mret ());;
  (* Save to localStorage *)
  history ← gets detectionHistory;
  blocked ← gets storageBlocked;
  (if (blocked : bool) then throw QuotaExceededError
   else modify (with_localStorage (λ s, <[ "anprHistory" := history ]> s)));;
  (* Update UI *)
  loadDetectionHistory.

(** The globals when the script is loaded, and the [DOMContentLoaded]
    listener: [JSON.parse(localStorage.getItem('anprHistory')) || []].  The
    store accepts writes until the browser says otherwise. *)
Definition load_script (page : gmap string Element)
    (storage : gmap string (list HistoryItem)) : State :=
  {| document := page; cameraStream := None;
     detectionHistory := default [] (storage !! "anprHistory");
     localStorage := storage; storageBlocked := false;
     notifications := []; network := [];
     downloads := []; console := []; stoppedTracks := [] |}.

Definition DOMContentLoaded : Script unit := loadDetectionHistory.

(** [previewImage()]; [reader_result] is the data URL the [FileReader]
    delivers to [onload], if it does. *)
Definition previewImage (reader_result : option string) : Script unit :=
  fileInput ← getElementById "fileInput";
  match files fileInput with
  | file :: _ =>
      match reader_result with
      | Some result =>
          set "preview" (set_src result);;
          set "preview" (set_display "block");;
          set ".detect-btn" (set_disabled false)
      | None => mret ()
      end
  | [] =>
      set "preview" (set_display "none");;
      set ".detect-btn" (set_disabled true)
  end.

(** The readings of the clock during one request. *)
Record Clock := {
  startTime : Js.number;       (* performance.now() before the request *)
  endTime : Js.number;         (* performance.now() after the answer *)
  toLocaleString : string;     (* new Date().toLocaleString() *)
  getTime : Z                  (* new Date().getTime(), whole milliseconds *)
}.

Definition sentinel : string := "No plate detected".

(** [data.number_plate && data.number_plate !== "No plate detected"]. *)
Definition plate_detected (data : Payload) : bool :=
  Js.truthy (number_plate data)
  && Js.differs_from (number_plate data) sentinel.

(** [el.textContent = v] for the element [id]. *)
Definition set_text (id : string) (v : Js.value) : Script unit :=
  match Js.text_of v with
  | Some text => set id (set_textContent text)
  | None => throw TypeError
  end.

(** [data.confidence ? `${(data.confidence * 100).toFixed(2)}%` : 'N/A']. *)
Definition confidence_text (data : Payload) : string :=
  match confidence data with
  | Some c =>
      if Js.truthy_number c then Js.toFixed2 (c * 100)%float +:+ "%"
      else "N/A"
  | None => "N/A"
  end.

Definition loading_html (label : string) : string :=
  "<span class=" +:+ Js.dq +:+ "loading" +:+ Js.dq +:+ "></span>" +:+ label.

(** [fetch("/upload", { method: "POST", body: formData })]: the request
    goes out, then the promise settles as the environment decides. *)
Definition fetch (req : Request) (answer : FetchOutcome) : Script Response :=
  modify (with_network (λ l, l ++ [req]));;
  match answer with
  | FetchRejected => throw NetworkError
  | FetchResolved res => mret res
  end.

(** [await res.json()]: [None] is the JSON value [null]. *)
Definition json (res : Response) : Script (option Payload) :=
  match body res with
  | BodyNotJson => throw SyntaxError
  | BodyNull => mret None
  | BodyObject data => mret (Some data)
  end.

(** Reading a property of [data] throws when [data] is [null]. *)
Definition properties (data : option Payload) : Script Payload :=
  match data with
  | None => throw TypeError
  | Some d => mret d
  end.

(** The loading state of [uploadImage], shown until the answer is there;
    it yields the label the button had.  [event.target] is the button that
    was clicked, the [.detect-btn] element. *)
Definition uploadImage_loading : Script string :=
  btn ← getElementById ".detect-btn";
  let originalText := innerHTML btn in
  set ".detect-btn" (set_innerHTML (loading_html "Processing..."));;
  set ".detect-btn" (set_disabled true);;
  set "plateNumber" (set_textContent "Detecting...");;
  set "plateNumber" (classList_remove "detected");;
  set "resultDetails" (set_display "none");;
  mret originalText.

(** [uploadImage()]. *)
Definition uploadImage (answer : FetchOutcome) (clock : Clock) : Script unit :=
  fileInput ← getElementById "fileInput";
  match files fileInput with
  | [] => showNotification "⚠️ Please choose an image first!" "warning"
  | file :: _ =>
      (* Show loading state *)
      originalText ← uploadImage_loading;
      try_catch_finally
        (res ← fetch {| url := "/upload"; method := "POST";
                        part_filename := file_name file;
                        part_data := file_data file |} answer;
         (if negb (ok res) then throw (HttpError (status res)) else mret ());;
         parsed ← json res;
         let processTime :=
           Js.Math_round (endTime clock - startTime clock)%float in
         data ← properties parsed;
         if plate_detected data then
           set_text "plateNumber" (number_plate data);;
           set "plateNumber" (classList_add "detected");;
           (* Show additional details if available *)
           set "confidence" (set_textContent (confidence_text data));;
           set "processingTime"
             (set_textContent (Js.Number_toString processTime));;
           set "resultDetails" (set_display "block");;
           set "downloadBtn" (set_disabled false);;
           (* Add to history *)
           addToHistory (number_plate data) (confidence data)
             processTime (toLocaleString clock);;
           showNotification "✅ Number plate detected successfully!" "success"
         else
           set "plateNumber" (set_textContent "❌ No plate detected");;
           set "plateNumber" (classList_remove "detected");;
           set "resultDetails" (set_display "none");;
           set "downloadBtn" (set_disabled true);;
           showNotification "❌ No number plate found in the image" "error")
        (λ err,
           console_error err;;
           set "plateNumber" (set_textContent "⚠️ Processing Error!");;
           set "plateNumber" (classList_remove "detected");;
           set "resultDetails" (set_display "none");;
           set "downloadBtn" (set_disabled true);;
           showNotification "⚠️ Failed to process image. Please try again."
             "error")
        (* Reset button state *)
        (set ".detect-btn" (set_innerHTML originalText);;
         set ".detect-btn" (set_disabled false))
  end.

(** [navigator.mediaDevices.getUserMedia(...)]. *)
Definition getUserMedia (granted : option MediaStream) : Script MediaStream :=
  match granted with
  | None => throw TypeError
  | Some stream => mret stream
  end.

(** [initializeWebcam()]. *)
Definition initializeWebcam (granted : option MediaStream) : Script unit :=
  try_catch_finally
    (set "startCamera" (set_innerHTML (loading_html "Starting..."));;
     set "startCamera" (set_disabled true);;
     stream ← getUserMedia granted;
     set "webcam" (set_srcObject (Some stream));;
     modify (with_cameraStream (Some stream));;
     set "cameraOverlay" (set_display "none");;
     set "captureBtn" (set_disabled false);;
     set "stopCamera" (set_disabled false);;
     showNotification "📷 Camera activated successfully!" "success")
    (λ err,
       console_error err;;
       set "cameraOverlay" (set_textContent "❌ Camera Error");;
       showNotification "❌ Camera access denied or not available" "error")
    (set "startCamera" (set_innerHTML "📷 Start Camera");;
     set "startCamera" (set_disabled false)).

(** [stopWebcam()]. *)
Definition stopWebcam : Script unit :=
  stream ← gets cameraStream;
  match stream with
  | Some s =>
      modify (with_stoppedTracks (λ l, l ++ getTracks s));;
      modify (with_cameraStream None);;
      set "webcam" (set_srcObject None);;
      set "cameraOverlay" (set_display "flex");;
      set "cameraOverlay" (set_textContent "Camera Off");;
      set "captureBtn" (set_disabled true);;
      set "stopCamera" (set_disabled true);;
      showNotification "📷 Camera turned off" "info"
  | None => mret ()
  end.

(** The loading state of [captureFromWebcam], shown until the frame is
    encoded and the answer is there; it yields the label the button had. *)
Definition captureFromWebcam_loading : Script string :=
  btn ← getElementById "captureBtn";
  let originalText := innerHTML btn in
  set "captureBtn" (set_innerHTML (loading_html "Capturing..."));;
  set "captureBtn" (set_disabled true);;
  set "plateNumber" (set_textContent "Processing...");;
  set "plateNumber" (classList_remove "detected");;
  set "resultDetails" (set_display "none");;
  mret originalText.

(** [captureFromWebcam()]; [blob] is what [canvas.toBlob] hands to its
    callback, [None] when the frame cannot be encoded.  The flash on the
    video element is purely visual and left out. *)
Definition captureFromWebcam (blob : option string) (answer : FetchOutcome)
    (clock : Clock) : Script unit :=
  stream ← gets cameraStream;
  match stream with
  | None => showNotification "⚠️ Please enable camera first!" "warning"
  | Some _ =>
      (* Show loading state *)
      originalText ← captureFromWebcam_loading;
      try_catch_finally
        (bytes ← match blob with
                 | None => throw TypeError   (* formData.append(_, null, _) *)
                 | Some b => mret b
                 end;
         res ← fetch {| url := "/upload"; method := "POST";
                        part_filename := "capture.jpg";
                        part_data := bytes |} answer;
         parsed ← json res;
         let processTime :=
           Js.Math_round (endTime clock - startTime clock)%float in
         data ← properties parsed;
         if plate_detected data then
           set_text "plateNumber" (number_plate data);;
           set "plateNumber" (classList_add "detected");;
           set "confidence" (set_textContent (confidence_text data));;
           set "processingTime"
             (set_textContent (Js.Number_toString processTime));;
           set "resultDetails" (set_display "block");;
           set "downloadBtn" (set_disabled false);;
           (* Add to history *)
           addToHistory (number_plate data) (confidence data)
             processTime (toLocaleString clock);;
           showNotification "✅ Number plate detected from camera!" "success"
         else
           set "plateNumber" (set_textContent "❌ No plate detected");;
           set "plateNumber" (classList_remove "detected");;
           set "resultDetails" (set_display "none");;
           set "downloadBtn" (set_disabled true);;
           showNotification "❌ No number plate found in the image" "error")
        (λ err,
           console_error err;;
           set "plateNumber" (set_textContent "⚠️ Capture failed!");;
           set "plateNumber" (classList_remove "detected");;
           set "resultDetails" (set_display "none");;
           set "downloadBtn" (set_disabled true);;
           showNotification "⚠️ Failed to capture image" "error")
        (set "captureBtn" (set_innerHTML originalText);;
         set "captureBtn" (set_disabled false))
  end.

(** The test of [downloadResult]: the text is non-empty and contains none
    of the four marker words. *)
Definition downloadable (plateText : string) : bool :=
  Js.truthy_string plateText
  && negb (Js.includes plateText "Waiting")
  && negb (Js.includes plateText "No plate")
  && negb (Js.includes plateText "Detecting")
  && negb (Js.includes plateText "Error").

(** [downloadResult()]. *)
Definition downloadResult (clock : Clock) : Script unit :=
  plateNumber ← getElementById "plateNumber";
  let plateText := textContent plateNumber in
  if downloadable plateText then
    modify (with_downloads (λ l, l ++ [
      {| download :=
           "number_plate_" +:+ Js.digits (getTime clock) +:+ ".txt";
         blob_text :=
           "Detected Number Plate: " +:+ plateText +:+ Js.nl
             +:+ "Timestamp: " +:+ toLocaleString clock;
         blob_type := "text/plain" |} ]));;
    showNotification "📥 Result downloaded successfully!" "success"
  else
    showNotification "⚠️ No valid result to download!" "warning".

(** [clearAll()]. *)
Definition clearAll : Script unit :=
  (* Clear file input *)
  set "fileInput" (set_files []);;
  (* Clear preview *)
  set "preview" (set_src "");;
  set "preview" (set_display "none");;
  (* Clear results *)
  set "plateNumber" (set_textContent "Waiting for detection...");;
  set "plateNumber" (classList_remove "detected");;
  set "resultDetails" (set_display "none");;
  set "downloadBtn" (set_disabled true);;
  (* Disable detect button *)
  set ".detect-btn" (set_disabled true);;
  showNotification "🗑️ All inputs and results cleared!" "info".

(** ** Runs of the page

    What can happen to the page: the user picks files in the file input,
    the store starts or stops refusing writes (both the browser's doing),
    or one of the script's functions runs. *)
Inductive Event :=
| ChooseFiles (fs : list File)
| StorageBlocked (blocked : bool)
| PreviewImage (reader_result : option string)
| UploadImage (answer : FetchOutcome) (clock : Clock)
| InitializeWebcam (granted : option MediaStream)
| StopWebcam
| CaptureFromWebcam (blob : option string) (answer : FetchOutcome)
    (clock : Clock)
| DownloadResult (clock : Clock)
| ClearAll
| LoadDetectionHistory.

Definition handler (ev : Event) : Script unit :=
  match ev with
  | ChooseFiles fs => set "fileInput" (set_files fs)
  | StorageBlocked blocked => modify (with_storageBlocked blocked)
  | PreviewImage r => previewImage r
  | UploadImage answer clock => uploadImage answer clock
  | InitializeWebcam granted => initializeWebcam granted
  | StopWebcam => stopWebcam
  | CaptureFromWebcam blob answer clock => captureFromWebcam blob answer clock
  | DownloadResult clock => downloadResult clock
  | ClearAll => clearAll
  | LoadDetectionHistory => loadDetectionHistory
  end.

Definition step (st : State) (ev : Event) : State := exec (handler ev) st.

Definition run (evs : list Event) (st : State) : State := foldl step st evs.

(** ** The server-side validator

    The recognition pipeline ([plate_detector.py]) is not among the
    sources at hand; its Validator/Normalizer is described by the design
    document only. *)

Module Validator.

(** Modelled from the spec: [plate_detector.py] is missing; the
    plate-format policy is "a regular pattern or a set of per-region
    patterns", here a regular expression over characters ([Alt] joins the
    per-region patterns). *)
Inductive pattern :=
| Void
| Eps
| Range (lo hi : ascii)
| Cat (r1 r2 : pattern)
| Alt (r1 r2 : pattern)
| Star (r : pattern).

(** Modelled from the spec: whether a pattern matches the empty text. *)
Fixpoint nullable (r : pattern) : bool :=
  match r with
  | Void => false
  | Eps => true
  | Range _ _ => false
  | Cat r1 r2 => nullable r1 && nullable r2
  | Alt r1 r2 => nullable r1 || nullable r2
  | Star _ => true
  end.

(** Modelled from the spec: a character class of the pattern, by
    character code. *)
Definition in_range (lo hi c : ascii) : bool :=
  (nat_of_ascii lo <=? nat_of_ascii c)%nat
  && (nat_of_ascii c <=? nat_of_ascii hi)%nat.

(** Modelled from the spec: the pattern left after reading [c]. *)
Fixpoint derive (c : ascii) (r : pattern) : pattern :=
  match r with
  | Void => Void
  | Eps => Void
  | Range lo hi => if in_range lo hi c then Eps else Void
  | Cat r1 r2 =>
      if nullable r1
      then Alt (Cat (derive c r1) r2) (derive c r2)
      else Cat (derive c r1) r2
  | Alt r1 r2 => Alt (derive c r1) (derive c r2)
  | Star r' => Cat (derive c r') (Star r')
  end.

(** Modelled from the spec: "match against a configurable plate-format
    policy"; the whole text has to match. *)
Fixpoint matches (r : pattern) (s : string) : bool :=
  match s with
  | EmptyString => nullable r
  | String c s' => matches (derive c r) s'
  end.

(** Modelled from the spec: the part of the enumerated configuration the
    validator consumes, with the allow-list of OCR confusions it may
    collapse. *)
Record Config := {
  plateFormatPattern : pattern;
  confusions : list (ascii * ascii)
}.

(** Modelled from the spec: "raw recognized string + engine-reported
    confidence in [0,1]" (the candidate region is not used here). *)
Record RecognitionOutcome := {
  rawText : string;
  engineConfidence : Q
}.

(** Modelled from the spec: the [NormalizedPlate] an accepted outcome
    turns into. *)
Record NormalizedPlate := {
  plateText : string;
  plateConfidence : Q
}.

(** Modelled from the spec: the whitespace that normalization strips. *)
Definition is_space (c : ascii) : bool :=
  let n := nat_of_ascii c in
  (n =? 32)%nat || ((9 <=? n)%nat && (n <=? 13)%nat).

(** Modelled from the spec: the characters normalization keeps, letters
    and digits ("uppercase letters + digits" once uppercased). *)
Definition is_alnum (c : ascii) : bool :=
  in_range "0" "9" c || in_range "A" "Z" c || in_range "a" "z" c.

(** Modelled from the spec: "uppercase". *)
Definition upper (c : ascii) : ascii :=
  if in_range "a" "z" c then ascii_of_nat (nat_of_ascii c - 32) else c.

(** Modelled from the spec: an OCR confusion is collapsed only when the
    allow-list names it. *)
Definition collapse (allow : list (ascii * ascii)) (c : ascii) : ascii :=
  match List.find (λ p, Ascii.eqb (fst p) c) allow with
  | Some p => snd p
  | None => c
  end.

(** Modelled from the spec: the characters of a text that pass a test,
    and a text changed character by character, for the steps of
    normalization. *)
Fixpoint filter_string (keep : ascii → bool) (s : string) : string :=
  match s with
  | EmptyString => EmptyString
  | String c s' =>
      if keep c then String c (filter_string keep s')
      else filter_string keep s'
  end.

Fixpoint map_string (f : ascii → ascii) (s : string) : string :=
  match s with
  | EmptyString => EmptyString
  | String c s' => String (f c) (map_string f s')
  end.

(** Modelled from the spec: "strip whitespace, remove
    recognized-but-disallowed characters, uppercase, collapse common OCR
    confusions only within a conservative allow-list". *)
Definition normalize (cfg : Config) (raw : string) : string :=
  map_string (collapse (confusions cfg))
    (map_string upper
       (filter_string is_alnum
          (filter_string (λ c, negb (is_space c)) raw))).

(** Modelled from the spec: [validate(RecognitionOutcome) ->
    NormalizedPlate | rejected]; a normalized text that is empty or fails
    the pattern is rejected, not corrected. *)
Definition validate (cfg : Config) (o : RecognitionOutcome)
    : option NormalizedPlate :=
  let text := normalize cfg (rawText o) in
  if Js.truthy_string text && matches (plateFormatPattern cfg) text
  then Some {| plateText := text; plateConfidence := engineConfidence o |}
  else None.

(** Modelled from the spec: "the Validator accepts the first candidate
    that both recognizes non-empty text and validates successfully", the
    candidates coming best-score first. *)
Fixpoint accept_first (cfg : Config) (os : list RecognitionOutcome)
    : option NormalizedPlate :=
  match os with
  | [] => None
  | o :: os' =>
      match validate cfg o with
      | Some np => Some np
      | None => accept_first cfg os'
      end
  end.

(** A plate format in the style of the sample plates of the README
    ([TN09AB1234]): two letters, two digits, one or two letters, four
    digits. *)
Definition letter : pattern := Range "A" "Z".
Definition digit : pattern := Range "0" "9".

Definition sample_pattern : pattern :=
  Cat letter (Cat letter (Cat digit (Cat digit
    (Cat letter (Cat (Alt letter Eps)
       (Cat digit (Cat digit (Cat digit digit)))))))).

Definition sample_config : Config :=
  {| plateFormatPattern := sample_pattern; confusions := [] |}.

(** Two recognition outcomes: a readable plate and a fragment. *)
Definition seen : RecognitionOutcome :=
  {| rawText := " tn09 ab-1234 "; engineConfidence := (93 # 100)%Q |}.

Definition blur : RecognitionOutcome :=
  {| rawText := "TN0?"; engineConfidence := (40 # 100)%Q |}.

End Validator.

(** ** Vocabulary of the properties *)

Definition plate_text (st : State) : string :=
  textContent (elem "plateNumber" st).

(** The [number_plate] field is present, non-empty and not the sentinel. *)
Definition recognised (data : Payload) : Prop :=
  number_plate data ≠ Js.Undefined
  ∧ number_plate data ≠ Js.Null
  ∧ number_plate data ≠ Js.Str ""
  ∧ number_plate data ≠ Js.Str "No plate detected".

(** The [number_plate] field is a string, as the contract of [/upload] has
    it, or holds nothing. *)
Definition textual (data : Payload) : Prop :=
  match number_plate data with
  | Js.Undefined | Js.Null | Js.Str _ => True
  | _ => False
  end.


(** The detected-plate state: the plate is shown and marked, the details
    are shown, the download is enabled, the last notification is a
    success. *)
Definition detected_state (data : Payload) (st : State) : Prop :=
  Js.text_of (number_plate data) = Some (plate_text st)
  ∧ "detected" ∈ classList (elem "plateNumber" st)
  ∧ display (elem "resultDetails" st) = "block"
  ∧ disabled (elem "downloadBtn" st) = false
  ∧ ∃ msg, last (notifications st) = Some {| message := msg; type := "success" |}.

(** The no-plate outcome. *)
Definition no_plate_state (st : State) : Prop :=
  plate_text st = "❌ No plate detected"
  ∧ ("detected" ∉ classList (elem "plateNumber" st))
  ∧ display (elem "resultDetails" st) = "none"
  ∧ disabled (elem "downloadBtn" st) = true.

(** The error state of a handler whose action button is [btn]. *)
Definition error_state (msg btn : string) (st : State) : Prop :=
  plate_text st = msg
  ∧ ("detected" ∉ classList (elem "plateNumber" st))
  ∧ display (elem "resultDetails" st) = "none"
  ∧ disabled (elem "downloadBtn" st) = true
  ∧ disabled (elem btn st) = false.

(** The server's answer carries the payload [data]: the status is ok and
    the body is that JSON object. *)
Definition delivers (res : Response) (data : Payload) : Prop :=
  ok res = true ∧ body res = BodyObject data.

(** The payload an HTTP answer carries in its body, whatever its status;
    a body that is no JSON object has no fields. *)
Definition response_data (res : Response) : Payload :=
  match body res with
  | BodyObject data => data
  | _ => {| number_plate := Js.Undefined; confidence := None |}
  end.


(** What the plate display may read once a request handler with error
    text [msg] has dealt with [answer]: the no-plate message, the error
    message, or the recognised plate of the answer's payload. *)
Definition shown (msg : string) (answer : FetchOutcome) (st' : State) : Prop :=
  plate_text st' = "❌ No plate detected"
  ∨ plate_text st' = msg
  ∨ ∃ res data,
      answer = FetchResolved res ∧ body res = BodyObject data
      ∧ recognised data
      ∧ Js.text_of (number_plate data) = Some (plate_text st').

(** The elements [clearAll] writes. *)
Definition cleared : list string :=
  [ "fileInput"; "preview"; "plateNumber"; "resultDetails"; "downloadBtn";
    ".detect-btn" ].

(** The history, in the script and in the store, holds at most ten
    entries. *)
Definition history_bounded (st : State) : Prop :=
  (length (detectionHistory st) ≤ 10)%nat
  ∧ ∀ h, localStorage st !! "anprHistory" = Some h → (length h ≤ 10)%nat.

(** The part of the state [addToHistory] is about: the history and the
    store. *)
Definition history_of (st : State)
    : list HistoryItem * gmap string (list HistoryItem) :=
  (detectionHistory st, localStorage st).

(** The entry a handler makes for [data] at [clock]. *)
Definition entry (data : Payload) (clock : Clock) : HistoryItem :=
  {| plate := number_plate data;
     item_confidence := confidence data;
     processTime := Js.Math_round (endTime clock - startTime clock)%float;
     timestamp := toLocaleString clock |}.


(** The displayed text contains one of the four marker words. *)
Definition has_marker (text : string) : Prop :=
  Js.includes text "Waiting" = true
  ∨ Js.includes text "No plate" = true
  ∨ Js.includes text "Detecting" = true
  ∨ Js.includes text "Error" = true.

(** The file [downloadResult] produces for the text [text]. *)
Definition result_file (text : string) (clock : Clock) : Download :=
  {| download :=
       "number_plate_" +:+ Js.digits (getTime clock) +:+ ".txt";
     blob_text :=
       "Detected Number Plate: " +:+ text +:+ Js.nl
         +:+ "Timestamp: " +:+ toLocaleString clock;
     blob_type := "text/plain" |}.

Definition warned (msg : string) (st st' : State) : Prop :=
  notifications st' =
  notifications st ++ [ {| message := msg; type := "warning" |} ].

(** Events whose answer, if they carry one, has a [number_plate] that is a
    string or holds nothing. *)
Definition textual_answer (answer : FetchOutcome) : Prop :=
  match answer with
  | FetchResolved res => textual (response_data res)
  | FetchRejected => True
  end.

Definition textual_event (ev : Event) : Prop :=
  match ev with
  | UploadImage answer _ => textual_answer answer
  | CaptureFromWebcam _ answer _ => textual_answer answer
  | _ => True
  end.

(** The page while a handler waits: the state its first part [m] leaves. *)
Definition suspended {A} (m : Script A) (st : State) : State := (m st).2.

(** ** Sample data *)

Definition sample_page : gmap string Element :=
  <[ "plateNumber" := set_textContent "Waiting for detection..." inhabitant ]>
  (<[ ".detect-btn" := set_innerHTML "🔍 Detect Plate" inhabitant ]>
  (<[ "captureBtn" := set_innerHTML "📸 Capture & Detect" inhabitant ]> ∅)).

Definition sample_file : File :=
  {| file_name := "car.jpg"; file_data := "JFIF" |}.

Definition sample_clock : Clock :=
  {| startTime := 10%float; endTime := 123.4%float;
     toLocaleString := "1/1/2026, 10:00:00 AM"; getTime := 1767261600000 |}.

(** A freshly loaded page with an image chosen and the camera on. *)
Definition ready : State :=
  run [ ChooseFiles [sample_file];
        PreviewImage (Some "data:image/jpeg;base64,");
        InitializeWebcam (Some {| getTracks := [0%nat] |}) ]
    (load_script sample_page ∅).

(** The same page when the store refuses writes. *)
Definition ready_but_blocked : State := step ready (StorageBlocked true).

Definition plate_payload : Payload :=
  {| number_plate := Js.Str "TN09AB1234"; confidence := Some 0.93%float |}.

Definition zero_confidence_payload : Payload :=
  {| number_plate := Js.Str "TN09AB1234"; confidence := Some 0%float |}.

Definition error_payload : Payload :=
  {| number_plate := Js.Undefined; confidence := None |}.

Definition empty_plate_payload : Payload :=
  {| number_plate := Js.Str ""; confidence := None |}.


Definition array_plate_payload : Payload :=
  {| number_plate := Js.Array []; confidence := None |}.

Definition answer_200 (data : Payload) : Response :=
  {| status := 200; body := BodyObject data |}.

Definition answer_500 (data : Payload) : Response :=
  {| status := 500; body := BodyObject data |}.

Definition sample_item (n : Z) : HistoryItem :=
  {| plate := Js.Str "MH01CD5678"; item_confidence := None;
     processTime := Js.float_of_Z n;
     timestamp := "1/1/2026, 9:00:00 AM" |}.

(** A stored history that is longer than the bound, and the page loaded
    with it. *)
Definition long_history : list HistoryItem :=
  sample_item <$> [1; 2; 3; 4; 5; 6; 7; 8; 9; 10; 11; 12]%Z.

Definition overfull : State :=
  load_script sample_page {[ "anprHistory" := long_history ]}.

(** The page after an upload that was answered with a plate, and that page
    while a capture started on it waits for its answer. *)
Definition plate_shown : State :=
  step ready
    (UploadImage (FetchResolved (answer_200 plate_payload)) sample_clock).

Definition capture_pending : State :=
  suspended captureFromWebcam_loading plate_shown.

(** ** Auxiliary definitions for the proofs *)

(** What [loadDetectionHistory] writes for the history [h], if every entry
    can be listed. *)
Definition history_html (h : list HistoryItem) : option string :=
  if decide (length h = 0) then Some no_history_html
  else Js.join "" <$> map_items history_item_html h.

(** The history after [item] has been put in front and the list cut. *)
Definition pushed (item : HistoryItem) (h : list HistoryItem)
    : list HistoryItem :=
  take 10 (item :: h).

(** How a request ends, as the handlers branch on it: a detection that is
    shown and recorded, a detection whose recording throws, no plate, or a
    failure before anything is shown. *)
Inductive Outcome :=
| Detected (data : Payload)
| Unrecorded (data : Payload)
| NoPlate (data : Payload)
| Failed.

Definition read_body (clock : Clock) (st : State) (res : Response)
    : Outcome :=
  match body res with
  | BodyObject data =>
      if plate_detected data then
        match Js.text_of (number_plate data) with
        | Some _ =>
            if storageBlocked st then Unrecorded data
            else
              match history_html
                      (pushed (entry data clock) (detectionHistory st)) with
              | Some _ => Detected data
              | None => Unrecorded data
              end
        | None => Failed
        end
      else NoPlate data
  | BodyNull | BodyNotJson => Failed
  end.

Definition upload_outcome (clock : Clock) (st : State)
    (answer : FetchOutcome) : Outcome :=
  match answer with
  | FetchRejected => Failed
  | FetchResolved res => if ok res then read_body clock st res else Failed
  end.

Definition capture_outcome (clock : Clock) (st : State)
    (blob : option string) (answer : FetchOutcome) : Outcome :=
  match blob, answer with
  | Some _, FetchResolved res => read_body clock st res
  | _, _ => Failed
  end.

(** What a handler leaves behind for each outcome; [msg] is its error
    text and [btn] its action button. *)
Definition settled (o : Outcome) (msg btn : string) (clock : Clock)
    (st st' : State) : Prop :=
  disabled (elem btn st') = false
  ∧ match o with
    | Detected data =>
        detected_state data st'
        ∧ textContent (elem "confidence" st') = confidence_text data
        ∧ history_of st' =
          (pushed (entry data clock) (detectionHistory st),
           <[ "anprHistory" := pushed (entry data clock) (detectionHistory st) ]>
             (localStorage st))
    | Unrecorded data =>
        error_state msg btn st'
        ∧ detectionHistory st'
          = pushed (entry data clock) (detectionHistory st)
        ∧ localStorage st'
          = (if storageBlocked st then localStorage st
             else <[ "anprHistory" :=
                       pushed (entry data clock) (detectionHistory st) ]>
                    (localStorage st))
    | NoPlate _ => no_plate_state st' ∧ history_of st' = history_of st
    | Failed => error_state msg btn st' ∧ history_of st' = history_of st
    end.

(** An event leaves the history and the store alone, or it puts one entry
    in front of the history, cut at ten, and the store takes that list or
    stays as it was. *)
Definition history_step (st st' : State) : Prop :=
  history_of st' = history_of st
  ∨ ∃ item,
      detectionHistory st' = pushed item (detectionHistory st)
      ∧ (localStorage st' = localStorage st
         ∨ localStorage st' =
           <[ "anprHistory" := pushed item (detectionHistory st) ]>
             (localStorage st)).

(** ** Vocabulary of the further properties *)

(** The requests the two handlers make. *)
Definition upload_request (f : File) : Request :=
  {| url := "/upload"; method := "POST";
     part_filename := file_name f; part_data := file_data f |}.

Definition capture_request (bytes : string) : Request :=
  {| url := "/upload"; method := "POST";
     part_filename := "capture.jpg"; part_data := bytes |}.

(** What a handler's [catch] gets to log once the answer is there: nothing
    when the body is read and shown, else the error that ended the
    [try]. *)
Definition read_errors (clock : Clock) (st : State) (res : Response)
    : list JsError :=
  match body res with
  | BodyNotJson => [SyntaxError]
  | BodyNull => [TypeError]
  | BodyObject data =>
      if plate_detected data then
        match Js.text_of (number_plate data) with
        | None => [TypeError]
        | Some _ =>
            if storageBlocked st then [QuotaExceededError]
            else
              match history_html
                      (pushed (entry data clock) (detectionHistory st)) with
              | Some _ => []
              | None => [TypeError]
              end
        end
      else []
  end.

Definition upload_errors (clock : Clock) (st : State)
    (answer : FetchOutcome) : list JsError :=
  match answer with
  | FetchRejected => [NetworkError]
  | FetchResolved res =>
      if ok res then read_errors clock st res else [HttpError (status res)]
  end.

Definition capture_errors (clock : Clock) (st : State)
    (blob : option string) (answer : FetchOutcome) : list JsError :=
  match blob, answer with
  | None, _ => [TypeError]
  | Some _, FetchRejected => [NetworkError]
  | Some _, FetchResolved res => read_errors clock st res
  end.

(** What a request handler that got past its guard leaves behind besides
    the result: the requests [reqs] on the network, the errors [errors] on
    the console, the label of its button [btn] as it was, the store still
    refusing or accepting writes as before, and one notification, which is
    a success exactly when the plate display ends up marked. *)
Definition traced (errors : list JsError) (reqs : list Request)
    (btn : string) (st st' : State) : Prop :=
  network st' = network st ++ reqs
  ∧ console st' = console st ++ errors
  ∧ innerHTML (elem btn st') = innerHTML (elem btn st)
  ∧ storageBlocked st' = storageBlocked st
  ∧ ∃ n, notifications st' = notifications st ++ [n]
         ∧ (type n = "success"
            ↔ "detected" ∈ classList (elem "plateNumber" st')).

(** The download button is enabled exactly while a detection is marked,
    and a detection is marked exactly while the details are shown. *)
Definition download_matches_detection (st : State) : Prop :=
  (disabled (elem "downloadBtn" st) = false
   ↔ "detected" ∈ classList (elem "plateNumber" st))
  ∧ ("detected" ∈ classList (elem "plateNumber" st)
     ↔ display (elem "resultDetails" st) = "block").

(** The history of the script is the one in the store. *)
Definition history_in_store (st : State) : Prop :=
  detectionHistory st = default [] (localStorage st !! "anprHistory").

(** Events other than the store starting to refuse writes. *)
Definition store_open (ev : Event) : Prop :=
  match ev with
  | StorageBlocked blocked => blocked = false
  | _ => True
  end.

(** [addToHistory] for the fields of an entry, and for several entries one
    after the other. *)
Definition addToHistory_item (x : HistoryItem) : Script unit :=
  addToHistory (plate x) (item_confidence x) (processTime x) (timestamp x).

Definition add_all (items : list HistoryItem) (st : State) : State :=
  foldl (λ s x, exec (addToHistory_item x) s) st items.

(** * Properties *)

(** ** Reading the page after updates *)

Lemma elem_update_eq id f st : elem id (update id f st) = f (elem id st).
Proof. unfold elem, update. cbn. apply lookup_total_insert_eq. Qed.

Lemma elem_update_ne id id' f st :
  id ≠ id' → elem id' (update id f st) = elem id' st.
Proof.
  intros Hne. unfold elem, update. cbn. by apply lookup_total_insert_ne.
Qed.

Lemma elem_with_cameraStream id v st :
  elem id (with_cameraStream v st) = elem id st.
Proof. reflexivity. Qed.

Lemma elem_with_detectionHistory id v st :
  elem id (with_detectionHistory v st) = elem id st.
Proof. reflexivity. Qed.

Lemma elem_with_localStorage id f st :
  elem id (with_localStorage f st) = elem id st.
Proof. reflexivity. Qed.

Lemma elem_with_storageBlocked id v st :
  elem id (with_storageBlocked v st) = elem id st.
Proof. reflexivity. Qed.

Lemma elem_with_notifications id f st :
  elem id (with_notifications f st) = elem id st.
Proof. reflexivity. Qed.

Lemma elem_with_network id f st : elem id (with_network f st) = elem id st.
Proof. reflexivity. Qed.

Lemma elem_with_downloads id f st :
  elem id (with_downloads f st) = elem id st.
Proof. reflexivity. Qed.

Lemma elem_with_console id f st : elem id (with_console f st) = elem id st.
Proof. reflexivity. Qed.

Lemma elem_with_stoppedTracks id f st :
  elem id (with_stoppedTracks f st) = elem id st.
Proof. reflexivity. Qed.

Ltac elem_simpl :=
  repeat first
    [ rewrite elem_update_eq
    | rewrite elem_update_ne by discriminate
    | rewrite elem_with_cameraStream
    | rewrite elem_with_detectionHistory
    | rewrite elem_with_localStorage
    | rewrite elem_with_storageBlocked
    | rewrite elem_with_notifications
    | rewrite elem_with_network
    | rewrite elem_with_downloads
    | rewrite elem_with_console
    | rewrite elem_with_stoppedTracks ].

Lemma cameraStream_update id f st :
  cameraStream (update id f st) = cameraStream st.
Proof. reflexivity. Qed.

Lemma detectionHistory_update id f st :
  detectionHistory (update id f st) = detectionHistory st.
Proof. reflexivity. Qed.

Lemma localStorage_update id f st :
  localStorage (update id f st) = localStorage st.
Proof. reflexivity. Qed.

Lemma storageBlocked_update id f st :
  storageBlocked (update id f st) = storageBlocked st.
Proof. reflexivity. Qed.

Lemma notifications_update id f st :
  notifications (update id f st) = notifications st.
Proof. reflexivity. Qed.

Lemma network_update id f st : network (update id f st) = network st.
Proof. reflexivity. Qed.

Lemma downloads_update id f st : downloads (update id f st) = downloads st.
Proof. reflexivity. Qed.

Lemma console_update id f st : console (update id f st) = console st.
Proof. reflexivity. Qed.

Lemma stoppedTracks_update id f st :
  stoppedTracks (update id f st) = stoppedTracks st.
Proof. reflexivity. Qed.

Ltac field_simpl :=
  unfold history_of;
  repeat first
    [ rewrite cameraStream_update
    | rewrite detectionHistory_update
    | rewrite localStorage_update
    | rewrite storageBlocked_update
    | rewrite notifications_update
    | rewrite network_update
    | rewrite downloads_update
    | rewrite console_update
    | rewrite stoppedTracks_update
    | progress cbn [cameraStream detectionHistory localStorage storageBlocked
                    notifications network downloads console stoppedTracks
                    with_cameraStream with_detectionHistory
                    with_localStorage with_storageBlocked with_notifications
                    with_network with_downloads with_console
                    with_stoppedTracks
                    textContent innerHTML disabled display classList src
                    files srcObject set_textContent set_innerHTML
                    set_disabled set_display set_classList set_src
                    set_files set_srcObject classList_add
                    classList_remove] ].

Ltac page_simpl := unfold plate_text; elem_simpl; field_simpl.

(** Unfolding a handler down to the state it builds. *)
Ltac script_unfold :=
  cbv [exec step handler suspended mbind Script_bind mret Script_ret set
       set_text modify gets getElementById throw fetch json properties
       showNotification console_error getUserMedia try_catch_finally
       uploadImage uploadImage_loading captureFromWebcam
       captureFromWebcam_loading clearAll downloadResult previewImage
       initializeWebcam stopWebcam loadDetectionHistory fst snd].

(** ** Strings *)

Lemma append_cons c t b : String c t +:+ b = String c (t +:+ b).
Proof. reflexivity. Qed.

Lemma append_nil_r s : s +:+ "" = s.
Proof. induction s as [|c s IH]; [done |]. by rewrite append_cons, IH. Qed.

Lemma append_assoc s t u : (s +:+ t) +:+ u = s +:+ (t +:+ u).
Proof. induction s as [|c s IH]; [done |]. by rewrite !append_cons, IH. Qed.

Lemma prefix_spec t s : String.prefix t s = true ↔ ∃ b, s = t +:+ b.
Proof.
  revert s. induction t as [|c t IH]; intros [|c' s]; cbn.
  - split; [intros _; by exists "" | done].
  - split; [intros _; by exists (String c' s) | done].
  - split; [done | intros [b Hb]; discriminate].
  - setoid_rewrite append_cons.
    destruct (Ascii.ascii_dec c c') as [->|Hne].
    + rewrite IH. split; intros [b Hb]; exists b; congruence.
    + split; [done | intros [b Hb]; congruence].
Qed.

(** [Js.includes] is the substring test. *)
Lemma includes_spec s t :
  Js.includes s t = true ↔ ∃ a b, s = a +:+ t +:+ b.
Proof.
  induction s as [|c s IH]; cbn [Js.includes].
  - rewrite orb_false_r, prefix_spec. split.
    + intros [b Hb]. by exists "", b.
    + intros (a & b & Hab). destruct a; [by exists b | discriminate].
  - rewrite orb_true_iff, prefix_spec, IH. split.
    + intros [[b Hb] | (a & b & Hab)].
      * by exists "", b.
      * exists (String c a), b. rewrite append_cons. by rewrite Hab.
    + intros (a & b & Hab). destruct a as [|c' a].
      * left. by exists b.
      * right. exists a, b. rewrite append_cons in Hab. congruence.
Qed.

Lemma truthy_string_spec s : Js.truthy_string s = true ↔ s ≠ "".
Proof. destruct s; cbn; split; congruence. Qed.

(** ** Payloads *)

(** On a payload whose [number_plate] is a string or holds nothing, the
    test of the handlers is the property of the payload. *)
Lemma plate_detected_spec data :
  textual data → plate_detected data = true ↔ recognised data.
Proof.
  unfold textual, plate_detected, recognised, sentinel.
  destruct (number_plate data) as [| |b|x|p|items|props]; try done; intros _.
  - cbn. split; [done | intros (H & _); done].
  - cbn. split; [done | intros (_ & H & _); done].
  - cbn [Js.truthy Js.differs_from].
    rewrite andb_true_iff, truthy_string_spec, negb_true_iff. split.
    + intros [Hne Hs]. split_and!; [done | done | congruence |].
      intros [= ->]. by rewrite String.eqb_refl in Hs.
    + intros (_ & _ & Hne & Hs). split; [congruence |].
      apply String.eqb_neq. congruence.
Qed.



(** The text of a recognised string is not empty. *)
Lemma recognised_nonempty data text :
  textual data → recognised data →
  Js.text_of (number_plate data) = Some text → text ≠ "".
Proof.
  unfold textual, recognised.
  destruct (number_plate data) as [| |b|x|p|items|props]; try done.
  - intros _ (H & _). done.
  - intros _ (_ & H & _). done.
  - intros _ (_ & _ & H & _) [= <-]. congruence.
Qed.

(** ** The history *)



Lemma addToHistory_eq p c t now st :
  addToHistory p c t now st =
  let h := pushed {| plate := p; item_confidence := c; processTime := t;
                     timestamp := now |} (detectionHistory st) in
  if storageBlocked st
  then (inl QuotaExceededError, with_detectionHistory h st)
  else
    match history_html h with
    | Some html =>
        (inr (),
         update "historyList" (set_innerHTML html)
           (with_localStorage (λ s, <[ "anprHistory" := h ]> s)
              (with_detectionHistory h st)))
    | None =>
        (inl TypeError,
         with_localStorage (λ s, <[ "anprHistory" := h ]> s)
           (with_detectionHistory h st))
    end.
Proof.
  unfold addToHistory, pushed, history_html. script_unfold.
  cbn [detectionHistory with_detectionHistory with_localStorage
       storageBlocked].
  destruct (decide (10 < _)) as [H|H].
  - cbn [detectionHistory with_detectionHistory with_localStorage
         storageBlocked].
    destruct (storageBlocked st); [reflexivity |].
    cbn [detectionHistory with_detectionHistory with_localStorage].
    destruct (decide _); [reflexivity |].
    destruct (map_items _ _); reflexivity.
  - rewrite (take_ge (_ :: _)) by (cbn [length] in *; lia).
    cbn [detectionHistory with_detectionHistory with_localStorage
         storageBlocked].
    destruct (storageBlocked st); [reflexivity |].
    cbn [detectionHistory with_detectionHistory with_localStorage].
    destruct (decide _); [reflexivity |].
    destruct (map_items _ _); reflexivity.
Qed.

Lemma pushed_length item h : (length (pushed item h) ≤ 10)%nat.
Proof. unfold pushed. rewrite length_take. lia. Qed.

Lemma pushed_head item h : head (pushed item h) = Some item.
Proof. reflexivity. Qed.

(** What [addToHistory] leaves in the history and in the store: the entry
    is put in front and the list cut in any case; the store takes the
    list unless it refuses the write. *)
Lemma addToHistory_history p c t now st :
  history_of (exec (addToHistory p c t now) st) =
  (pushed {| plate := p; item_confidence := c; processTime := t;
             timestamp := now |} (detectionHistory st),
   if storageBlocked st then localStorage st
   else <[ "anprHistory" :=
             pushed {| plate := p; item_confidence := c; processTime := t;
                       timestamp := now |} (detectionHistory st) ]>
          (localStorage st)).
Proof.
  unfold exec. rewrite addToHistory_eq. cbv zeta.
  destruct (storageBlocked st); [reflexivity |].
  destruct (history_html _); reflexivity.
Qed.

(** ** The two request handlers, outcome by outcome *)

(** ** Reading the history, the store and the notifications

    Each setter touches one field; these equations let a proof read a field
    through a long chain of updates by rewriting alone. *)

Lemma detectionHistory_with_detectionHistory v st :
  detectionHistory (with_detectionHistory v st) = v.
Proof. reflexivity. Qed.

Lemma detectionHistory_with_localStorage f st :
  detectionHistory (with_localStorage f st) = detectionHistory st.
Proof. reflexivity. Qed.

Lemma detectionHistory_with_notifications f st :
  detectionHistory (with_notifications f st) = detectionHistory st.
Proof. reflexivity. Qed.

Lemma detectionHistory_with_network f st :
  detectionHistory (with_network f st) = detectionHistory st.
Proof. reflexivity. Qed.

Lemma detectionHistory_with_console f st :
  detectionHistory (with_console f st) = detectionHistory st.
Proof. reflexivity. Qed.

Lemma localStorage_with_detectionHistory v st :
  localStorage (with_detectionHistory v st) = localStorage st.
Proof. reflexivity. Qed.

Lemma localStorage_with_localStorage f st :
  localStorage (with_localStorage f st) = f (localStorage st).
Proof. reflexivity. Qed.

Lemma localStorage_with_notifications f st :
  localStorage (with_notifications f st) = localStorage st.
Proof. reflexivity. Qed.

Lemma localStorage_with_network f st :
  localStorage (with_network f st) = localStorage st.
Proof. reflexivity. Qed.

Lemma localStorage_with_console f st :
  localStorage (with_console f st) = localStorage st.
Proof. reflexivity. Qed.

Lemma storageBlocked_with_detectionHistory v st :
  storageBlocked (with_detectionHistory v st) = storageBlocked st.
Proof. reflexivity. Qed.

Lemma storageBlocked_with_localStorage f st :
  storageBlocked (with_localStorage f st) = storageBlocked st.
Proof. reflexivity. Qed.

Lemma storageBlocked_with_notifications f st :
  storageBlocked (with_notifications f st) = storageBlocked st.
Proof. reflexivity. Qed.

Lemma storageBlocked_with_network f st :
  storageBlocked (with_network f st) = storageBlocked st.
Proof. reflexivity. Qed.

Lemma storageBlocked_with_console f st :
  storageBlocked (with_console f st) = storageBlocked st.
Proof. reflexivity. Qed.

Lemma notifications_with_detectionHistory v st :
  notifications (with_detectionHistory v st) = notifications st.
Proof. reflexivity. Qed.

Lemma notifications_with_localStorage f st :
  notifications (with_localStorage f st) = notifications st.
Proof. reflexivity. Qed.

Lemma notifications_with_notifications f st :
  notifications (with_notifications f st) = f (notifications st).
Proof. reflexivity. Qed.

Lemma notifications_with_network f st :
  notifications (with_network f st) = notifications st.
Proof. reflexivity. Qed.

Lemma notifications_with_console f st :
  notifications (with_console f st) = notifications st.
Proof. reflexivity. Qed.

(** Reading one field of a state built by the handlers, one layer at a
    time and by rewriting only. *)
Ltac read_step :=
  match goal with
  | |- context [elem ?i (update ?i ?f ?s)] => rewrite (elem_update_eq i f s)
  | |- context [elem ?i (update ?j ?f ?s)] =>
      rewrite (elem_update_ne j i f s) by discriminate
  | |- context [elem ?i (with_detectionHistory ?v ?s)] =>
      rewrite (elem_with_detectionHistory i v s)
  | |- context [elem ?i (with_localStorage ?f ?s)] =>
      rewrite (elem_with_localStorage i f s)
  | |- context [elem ?i (with_notifications ?f ?s)] =>
      rewrite (elem_with_notifications i f s)
  | |- context [elem ?i (with_network ?f ?s)] =>
      rewrite (elem_with_network i f s)
  | |- context [elem ?i (with_console ?f ?s)] =>
      rewrite (elem_with_console i f s)
  | |- context [detectionHistory (update ?i ?f ?s)] =>
      rewrite (detectionHistory_update i f s)
  | |- context [detectionHistory (with_detectionHistory ?v ?s)] =>
      rewrite (detectionHistory_with_detectionHistory v s)
  | |- context [detectionHistory (with_localStorage ?f ?s)] =>
      rewrite (detectionHistory_with_localStorage f s)
  | |- context [detectionHistory (with_notifications ?f ?s)] =>
      rewrite (detectionHistory_with_notifications f s)
  | |- context [detectionHistory (with_network ?f ?s)] =>
      rewrite (detectionHistory_with_network f s)
  | |- context [detectionHistory (with_console ?f ?s)] =>
      rewrite (detectionHistory_with_console f s)
  | |- context [localStorage (update ?i ?f ?s)] =>
      rewrite (localStorage_update i f s)
  | |- context [localStorage (with_detectionHistory ?v ?s)] =>
      rewrite (localStorage_with_detectionHistory v s)
  | |- context [localStorage (with_localStorage ?f ?s)] =>
      rewrite (localStorage_with_localStorage f s)
  | |- context [localStorage (with_notifications ?f ?s)] =>
      rewrite (localStorage_with_notifications f s)
  | |- context [localStorage (with_network ?f ?s)] =>
      rewrite (localStorage_with_network f s)
  | |- context [localStorage (with_console ?f ?s)] =>
      rewrite (localStorage_with_console f s)
  | |- context [storageBlocked (update ?i ?f ?s)] =>
      rewrite (storageBlocked_update i f s)
  | |- context [storageBlocked (with_detectionHistory ?v ?s)] =>
      rewrite (storageBlocked_with_detectionHistory v s)
  | |- context [storageBlocked (with_localStorage ?f ?s)] =>
      rewrite (storageBlocked_with_localStorage f s)
  | |- context [storageBlocked (with_notifications ?f ?s)] =>
      rewrite (storageBlocked_with_notifications f s)
  | |- context [storageBlocked (with_network ?f ?s)] =>
      rewrite (storageBlocked_with_network f s)
  | |- context [storageBlocked (with_console ?f ?s)] =>
      rewrite (storageBlocked_with_console f s)
  | |- context [notifications (update ?i ?f ?s)] =>
      rewrite (notifications_update i f s)
  | |- context [notifications (with_detectionHistory ?v ?s)] =>
      rewrite (notifications_with_detectionHistory v s)
  | |- context [notifications (with_localStorage ?f ?s)] =>
      rewrite (notifications_with_localStorage f s)
  | |- context [notifications (with_notifications ?f ?s)] =>
      rewrite (notifications_with_notifications f s)
  | |- context [notifications (with_network ?f ?s)] =>
      rewrite (notifications_with_network f s)
  | |- context [notifications (with_console ?f ?s)] =>
      rewrite (notifications_with_console f s)
  end;
  cbn [textContent innerHTML disabled display classList src files srcObject
       set_textContent set_innerHTML set_disabled set_display set_classList
       set_src set_files set_srcObject classList_add classList_remove].

Lemma last_snoc_notification (l : list Notification) n : last (l ++ [n]) = Some n.
Proof. apply last_snoc. Qed.

Lemma class_removed c (X : gset string) : c ∉ X ∖ {[ c ]}.
Proof. rewrite elem_of_difference, elem_of_singleton. tauto. Qed.

Lemma class_added c (X : gset string) : c ∈ {[ c ]} ∪ X.
Proof. apply elem_of_union_l, elem_of_singleton. reflexivity. Qed.

Ltac read_done :=
  lazymatch goal with
  | |- ?x = ?y => first [ constr_eq x y | is_evar y ]; reflexivity
  | |- ∃ _, last (_ ++ [_]) = Some _ => eexists; apply last_snoc_notification
  | |- _ ∈ {[ _ ]} ∪ _ => apply class_added
  | |- _ ∉ _ ∖ {[ _ ]} => apply class_removed
  end.

Ltac read := repeat read_step; cbv beta; try read_done.

Ltac settle :=
  unfold settled, detected_state, no_plate_state, error_state, plate_text,
    history_of;
  repeat match goal with |- _ ∧ _ => split end;
  read;
  try match goal with
      | H : ?P |- ?P => exact H
      | H : storageBlocked ?s = _ |- context [storageBlocked ?s] =>
          rewrite H; reflexivity
      end.

(** Running a handler on the case at hand: the script is unfolded, the
    tests it makes are decided by the hypotheses, and the call of
    [addToHistory] is replaced by what it does. *)
Ltac decide_tests :=
  repeat match goal with
         | H : ?x = _ |- context [?x] =>
             rewrite H; cbv beta iota delta [negb]
         end.

Ltac evaluate :=
  script_unfold; decide_tests;
  try lazymatch goal with
      | |- context [addToHistory ?p ?c ?t ?n ?s] =>
          let Hb := fresh in
          let Hh := fresh in
          eassert (Hb : storageBlocked s = _) by read;
          eassert (Hh : detectionHistory s = _) by read;
          rewrite (addToHistory_eq p c t n s); cbv zeta;
          rewrite Hb, Hh; clear Hb Hh;
          match goal with
          | data : Payload, clock : Clock |- _ => fold (entry data clock)
          end;
          decide_tests
      end.

Lemma uploadImage_no_file answer clock st :
  files (elem "fileInput" st) = [] →
  exec (uploadImage answer clock) st =
  with_notifications
    (λ l, l ++ [ {| message := "⚠️ Please choose an image first!";
                    type := "warning" |} ]) st.
Proof. intros Hf. script_unfold. by rewrite Hf. Qed.

Lemma uploadImage_settled answer clock st :
  files (elem "fileInput" st) ≠ [] →
  settled (upload_outcome clock st answer) "⚠️ Processing Error!"
    ".detect-btn" clock st (exec (uploadImage answer clock) st).
Proof.
  intros Hf. destruct (files (elem "fileInput" st)) as [|file fs] eqn:Hfs;
    [done | clear Hf].
  unfold upload_outcome, read_body.
  destruct answer as [|res]; [evaluate; settle |].
  destruct (ok res) eqn:Hok; [| evaluate; settle].
  destruct (body res) as [| |data] eqn:Hbody; [evaluate; settle .. |].
  destruct (plate_detected data) eqn:Hd; [| evaluate; settle].
  destruct (Js.text_of (number_plate data)) as [text|] eqn:Htext;
    [| evaluate; settle].
  destruct (storageBlocked st) eqn:Hb; [evaluate; settle |].
  destruct (history_html _) as [html|] eqn:Hh; evaluate; settle.
Qed.

Lemma captureFromWebcam_no_camera blob answer clock st :
  cameraStream st = None →
  exec (captureFromWebcam blob answer clock) st =
  with_notifications
    (λ l, l ++ [ {| message := "⚠️ Please enable camera first!";
                    type := "warning" |} ]) st.
Proof. intros Hc. script_unfold. by rewrite Hc. Qed.

Lemma captureFromWebcam_settled blob answer clock st :
  cameraStream st ≠ None →
  settled (capture_outcome clock st blob answer) "⚠️ Capture failed!"
    "captureBtn" clock st (exec (captureFromWebcam blob answer clock) st).
Proof.
  intros Hc. destruct (cameraStream st) as [stream|] eqn:Hcs;
    [clear Hc | done].
  unfold capture_outcome, read_body.
  destruct blob as [bytes|]; [| evaluate; settle].
  destruct answer as [|res]; [evaluate; settle |].
  destruct (body res) as [| |data] eqn:Hbody; [evaluate; settle .. |].
  destruct (plate_detected data) eqn:Hd; [| evaluate; settle].
  destruct (Js.text_of (number_plate data)) as [text|] eqn:Htext;
    [| evaluate; settle].
  destruct (storageBlocked st) eqn:Hb; [evaluate; settle |].
  destruct (history_html _) as [html|] eqn:Hh; evaluate; settle.
Qed.

(** ** How an answer is read *)





(** Only a payload that passes the test ends as [Detected]. *)
Lemma read_body_detected clock st res data :
  read_body clock st res = Detected data →
  body res = BodyObject data ∧ plate_detected data = true.
Proof.
  unfold read_body. destruct (body res) as [| |d]; try done.
  destruct (plate_detected d) eqn:Hd; [| done].
  destruct (Js.text_of _); [| done].
  destruct (storageBlocked st); [done |].
  destruct (history_html _); [| done].
  by intros [= <-].
Qed.

Lemma upload_outcome_detected clock st answer data :
  upload_outcome clock st answer = Detected data →
  ∃ res, answer = FetchResolved res ∧ ok res = true
         ∧ body res = BodyObject data ∧ plate_detected data = true.
Proof.
  destruct answer as [|res]; [done |]. cbn.
  destruct (ok res) eqn:Hok; [| done].
  intros H%read_body_detected. by exists res.
Qed.

Lemma capture_outcome_detected clock st blob answer data :
  capture_outcome clock st blob answer = Detected data →
  ∃ res, answer = FetchResolved res
         ∧ body res = BodyObject data ∧ plate_detected data = true.
Proof.
  destruct blob as [bytes|], answer as [|res]; try done. cbn.
  intros H%read_body_detected. by exists res.
Qed.


Lemma error_not_detected data msg btn st :
  error_state msg btn st → ¬ detected_state data st.
Proof.
  intros (_ & _ & Hdisp & _) (_ & _ & Hdisp' & _). congruence.
Qed.



(** ** What one event does to the history and to the plate display *)

Lemma settled_history o msg btn clock st st' :
  settled o msg btn clock st st' → history_step st st'.
Proof.
  intros [_ Hs]. destruct o as [data|data|data|].
  - right. exists (entry data clock). destruct Hs as (_ & _ & [= Hh Hl]).
    split; [done | by right].
  - right. exists (entry data clock). destruct Hs as (_ & Hh & Hl).
    split; [done |]. destruct (storageBlocked st); [by left | by right].
  - left. apply Hs.
  - left. apply Hs.
Qed.

Lemma step_history ev st : history_step st (step st ev).
Proof.
  destruct ev as [fs|blocked|r|answer clock|granted| |blob answer clock|clock| |].
  - left. reflexivity.
  - left. reflexivity.
  - left. script_unfold.
    destruct (files (elem "fileInput" st)); [| destruct r]; reflexivity.
  - destruct (files (elem "fileInput" st)) as [|f fs] eqn:Hf.
    + left. unfold step, handler. by rewrite uploadImage_no_file.
    + eapply settled_history, uploadImage_settled. by rewrite Hf.
  - left. script_unfold. destruct granted; reflexivity.
  - left. script_unfold. destruct (cameraStream st); reflexivity.
  - destruct (cameraStream st) as [s|] eqn:Hc.
    + eapply settled_history, captureFromWebcam_settled. by rewrite Hc.
    + left. unfold step, handler. by rewrite captureFromWebcam_no_camera.
  - left. script_unfold. destruct (downloadable _); reflexivity.
  - left. reflexivity.
  - left. script_unfold. destruct (decide _); [reflexivity |].
    destruct (map_items _ _); reflexivity.
Qed.

Lemma settled_plate_text o msg btn clock st st' :
  msg ≠ "" →
  (∀ data, o = Detected data → textual data ∧ plate_detected data = true) →
  settled o msg btn clock st st' →
  plate_text st' ≠ "".
Proof.
  intros Hmsg Hrec [_ Hs]. destruct o as [data|data|data|].
  - destruct Hs as [(Hp & _) _]. destruct (Hrec data eq_refl) as [Ht Hd].
    apply (plate_detected_spec data Ht) in Hd.
    by eapply recognised_nonempty.
  - destruct Hs as [(-> & _) _]. done.
  - destruct Hs as [(-> & _) _]. done.
  - destruct Hs as [(-> & _) _]. done.
Qed.

(** No event writes the empty string to the plate display: it leaves the
    text as it was, or the new text is not empty. *)
Lemma step_writes_text ev st :
  textual_event ev →
  plate_text (step st ev) = plate_text st ∨ plate_text (step st ev) ≠ "".
Proof.
  intros Hev.
  destruct ev as [fs|blocked|r|answer clock|granted| |blob answer clock|clock| |].
  - left. script_unfold. by page_simpl.
  - by left.
  - left. script_unfold.
    destruct (files (elem "fileInput" st)); [| destruct r]; by page_simpl.
  - destruct (files (elem "fileInput" st)) as [|f fs] eqn:Hf.
    + left. unfold step, handler. by rewrite uploadImage_no_file.
    + right.
      eapply settled_plate_text; [| | apply uploadImage_settled; by rewrite Hf].
      * done.
      * intros data (res & -> & _ & Hb & Hd)%upload_outcome_detected.
        cbn in Hev. unfold response_data in Hev. by rewrite Hb in Hev.
  - left. script_unfold. destruct granted; by page_simpl.
  - left. script_unfold. destruct (cameraStream st); by page_simpl.
  - destruct (cameraStream st) as [s|] eqn:Hc.
    + right.
      eapply settled_plate_text;
        [| | apply captureFromWebcam_settled; by rewrite Hc].
      * done.
      * intros data (res & -> & Hb & Hd)%capture_outcome_detected.
        cbn in Hev. unfold response_data in Hev. by rewrite Hb in Hev.
    + left. unfold step, handler. by rewrite captureFromWebcam_no_camera.
  - left. script_unfold. destruct (downloadable _); by page_simpl.
  - right. script_unfold. by page_simpl.
  - left. script_unfold. destruct (decide _); [by page_simpl |].
    destruct (map_items _ _); by page_simpl.
Qed.

Lemma step_plate_text ev st :
  textual_event ev → plate_text st ≠ "" → plate_text (step st ev) ≠ "".
Proof.
  intros Hev Hne. destruct (step_writes_text ev st Hev) as [-> | H]; done.
Qed.

(** ** Rendering an answer (C1) *)



Lemma ready_files : files (elem "fileInput" ready) ≠ [].
Proof. vm_compute. discriminate. Qed.

Lemma ready_camera : cameraStream ready ≠ None.
Proof. vm_compute. discriminate. Qed.





(** ** Failed requests (C2) *)


Lemma capture_500_plate :
  capture_outcome sample_clock ready (Some "JFIF")
    (FetchResolved (answer_500 plate_payload)) = Detected plate_payload.
Proof. vm_compute. reflexivity. Qed.

Lemma capture_500_error :
  capture_outcome sample_clock ready (Some "JFIF")
    (FetchResolved (answer_500 error_payload)) = NoPlate error_payload.
Proof. vm_compute. reflexivity. Qed.

(** C2 fails on the capture path, which never looks at [res.ok]: an answer
    with status 500 is read like any other.  If its body carries a plate
    the page shows a detection and the history grows; if it carries an
    error object the page shows the no-plate message, not an error. *)
Theorem captureFromWebcam_ignores_status :
  let capture data :=
    exec (captureFromWebcam (Some "JFIF") (FetchResolved (answer_500 data))
            sample_clock) ready in
  cameraStream ready ≠ None
  ∧ ok (answer_500 plate_payload) = false
  ∧ detected_state plate_payload (capture plate_payload)
  ∧ detectionHistory ready = []
  ∧ detectionHistory (capture plate_payload) = [ entry plate_payload sample_clock ]
  ∧ no_plate_state (capture error_payload)
  ∧ plate_text (capture error_payload) ≠ "⚠️ Capture failed!".
Proof.
  intros capture.
  pose proof (captureFromWebcam_settled (Some "JFIF")
                (FetchResolved (answer_500 plate_payload)) sample_clock
                ready ready_camera) as [_ Hp].
  rewrite capture_500_plate in Hp. destruct Hp as (Hdet & _ & Hhist).
  pose proof (captureFromWebcam_settled (Some "JFIF")
                (FetchResolved (answer_500 error_payload)) sample_clock
                ready ready_camera) as [_ He].
  rewrite capture_500_error in He. destruct He as (Hno & _).
  split_and!; [exact ready_camera | reflexivity | exact Hdet | reflexivity
              | | exact Hno |].
  - apply (f_equal fst) in Hhist. exact Hhist.
  - unfold capture. destruct Hno as [-> _]. discriminate.
Qed.

(** ** Recording a detection (C3) *)




(** ** The displayed confidence (C4) *)

Lemma percent_not_NA s : s +:+ "%" ≠ "N/A".
Proof.
  destruct s as [|a [|b [|c s]]]; try discriminate.
  rewrite !append_cons. intros [= _ _ _ H]. destruct s; discriminate.
Qed.

(** With a confidence that is present and neither zero nor NaN the
    percentage is shown. *)
Lemma confidence_text_percent data c :
  confidence data = Some c → Js.truthy_number c = true →
  confidence_text data = Js.toFixed2 (c * 100)%float +:+ "%"
  ∧ confidence_text data ≠ "N/A".
Proof.
  intros Hc Ht. unfold confidence_text. rewrite Hc, Ht.
  split; [reflexivity | apply percent_not_NA].
Qed.

Lemma upload_zero_confidence :
  upload_outcome sample_clock ready
    (FetchResolved (answer_200 zero_confidence_payload))
  = Detected zero_confidence_payload.
Proof. vm_compute. reflexivity. Qed.

Lemma capture_zero_confidence :
  capture_outcome sample_clock ready (Some "JFIF")
    (FetchResolved (answer_200 zero_confidence_payload))
  = Detected zero_confidence_payload.
Proof. vm_compute. reflexivity. Qed.

(** C4 fails for a confidence of zero, which lies in [0,1]: the handlers
    test [data.confidence] for truthiness, so a detection with confidence 0
    is rendered as a detection whose confidence reads 'N/A'. *)
Theorem zero_confidence_shown_as_NA :
  let upload :=
    exec (uploadImage (FetchResolved (answer_200 zero_confidence_payload))
            sample_clock) ready in
  let capture :=
    exec (captureFromWebcam (Some "JFIF")
            (FetchResolved (answer_200 zero_confidence_payload))
            sample_clock) ready in
  confidence zero_confidence_payload = Some 0%float
  ∧ detected_state zero_confidence_payload upload
  ∧ textContent (elem "confidence" upload) = "N/A"
  ∧ detected_state zero_confidence_payload capture
  ∧ textContent (elem "confidence" capture) = "N/A".
Proof.
  intros upload capture.
  pose proof (uploadImage_settled
                (FetchResolved (answer_200 zero_confidence_payload))
                sample_clock ready ready_files) as [_ Hu].
  rewrite upload_zero_confidence in Hu. destruct Hu as (Hu & Hut & _).
  pose proof (captureFromWebcam_settled (Some "JFIF")
                (FetchResolved (answer_200 zero_confidence_payload))
                sample_clock ready ready_camera) as [_ Hcap].
  rewrite capture_zero_confidence in Hcap. destruct Hcap as (Hcap & Hct & _).
  split_and!; [reflexivity | exact Hu | exact Hut | exact Hcap | exact Hct].
Qed.

(** ** The bound on the history (C5) *)

Lemma step_bounded ev st :
  history_bounded st → history_bounded (step st ev).
Proof.
  intros [Hb Hs].
  destruct (step_history ev st) as [Hsame | (item & Hh & Hl)].
  - unfold history_of in Hsame. injection Hsame as Hh Hl.
    unfold history_bounded. by rewrite Hh, Hl.
  - unfold history_bounded. rewrite Hh. split; [apply pushed_length |].
    destruct Hl as [-> | ->]; [exact Hs |].
    intros h. rewrite lookup_insert_eq. intros [= <-]. apply pushed_length.
Qed.

(** C5.  After every call of [addToHistory], from whatever state, the
    history has at most ten entries; the copy stored under ['anprHistory']
    is that same history when the store takes the write, and is left as it
    was when the store refuses it; and along every run of the page the
    bound on the history and on the stored copy is preserved. *)
Theorem history_is_bounded :
  (∀ p c t now st,
     let st' := exec (addToHistory p c t now) st in
     (length (detectionHistory st') ≤ 10)%nat
     ∧ (storageBlocked st = false →
        localStorage st' !! "anprHistory" = Some (detectionHistory st'))
     ∧ (storageBlocked st = true → localStorage st' = localStorage st))
  ∧ (∀ evs st, history_bounded st → history_bounded (run evs st)).
Proof.
  split.
  - intros p c t now st st'.
    pose proof (addToHistory_history p c t now st) as Hh.
    fold st' in Hh. unfold history_of in Hh. injection Hh as Hh Hs.
    rewrite Hh, Hs. split_and!; [apply pushed_length | |].
    + intros ->. apply lookup_insert_eq.
    + intros ->. reflexivity.
  - intros evs. induction evs as [|ev evs IH]; intros st Hb; [exact Hb |].
    cbn. apply IH. by apply step_bounded.
Qed.

Lemma history_is_bounded_witness :
  (length (detectionHistory overfull) = 12)%nat
  ∧ (length (detectionHistory
               (exec (addToHistory (Js.Str "TN09AB1234") None 113%float
                        "1/1/2026, 10:00:00 AM") overfull)) ≤ 10)%nat
  ∧ history_bounded ready
  ∧ history_bounded
      (run [ UploadImage (FetchResolved (answer_200 plate_payload))
               sample_clock;
             StorageBlocked true;
             CaptureFromWebcam (Some "JFIF")
               (FetchResolved (answer_200 plate_payload)) sample_clock;
             ClearAll ] ready).
Proof.
  destruct history_is_bounded as [Hadd Hrun].
  assert (Hb : history_bounded ready).
  { split; [vm_compute; lia |]. intros h Hh. vm_compute in Hh. discriminate. }
  split; [reflexivity |].
  split; [exact (proj1 (Hadd (Js.Str "TN09AB1234") None 113%float
                          "1/1/2026, 10:00:00 AM" overfull)) |].
  split; [exact Hb |].
  exact (Hrun _ ready Hb).
Defined.

(** ** The plate display is never empty (C6) *)

Lemma run_plate_text evs st :
  Forall textual_event evs →
  plate_text st ≠ "" → plate_text (run evs st) ≠ "".
Proof.
  intros Hall. revert st.
  induction Hall as [|ev evs Hev _ IH]; intros st Hne; [exact Hne |].
  cbn. apply IH. by apply step_plate_text.
Qed.

Lemma textual_body res data :
  textual_answer (FetchResolved res) → body res = BodyObject data →
  textual data.
Proof. cbn. unfold response_data. intros Ht Hb. by rewrite Hb in Ht. Qed.

Lemma uploadImage_shown answer clock st :
  textual_answer answer →
  files (elem "fileInput" st) ≠ [] →
  shown "⚠️ Processing Error!" answer (exec (uploadImage answer clock) st).
Proof.
  intros Ht Hf.
  pose proof (uploadImage_settled answer clock st Hf) as [_ Hs].
  destruct (upload_outcome clock st answer) as [data|data|data|] eqn:Ho.
  - apply upload_outcome_detected in Ho as (res & -> & _ & Hb & Hd).
    destruct Hs as [(Hp & _) _]. right; right. exists res, data.
    split_and!; [done | done | | done].
    by apply plate_detected_spec; [eapply textual_body |].
  - destruct Hs as [(Hp & _) _]. right; by left.
  - destruct Hs as [(Hp & _) _]. by left.
  - destruct Hs as [(Hp & _) _]. right; by left.
Qed.

Lemma captureFromWebcam_shown blob answer clock st :
  textual_answer answer →
  cameraStream st ≠ None →
  shown "⚠️ Capture failed!" answer
    (exec (captureFromWebcam blob answer clock) st).
Proof.
  intros Ht Hc.
  pose proof (captureFromWebcam_settled blob answer clock st Hc) as [_ Hs].
  destruct (capture_outcome clock st blob answer) as [data|data|data|] eqn:Ho.
  - apply capture_outcome_detected in Ho as (res & -> & Hb & Hd).
    destruct Hs as [(Hp & _) _]. right; right. exists res, data.
    split_and!; [done | done | | done].
    by apply plate_detected_spec; [eapply textual_body |].
  - destruct Hs as [(Hp & _) _]. right; by left.
  - destruct Hs as [(Hp & _) _]. by left.
  - destruct Hs as [(Hp & _) _]. right; by left.
Qed.

Lemma shown_nonempty msg answer st' :
  textual_answer answer →
  msg ≠ "" → shown msg answer st' → plate_text st' ≠ "".
Proof.
  intros Ht Hmsg [-> | [-> | (res & data & -> & Hb & Hr & Hp)]];
    [done | done |].
  eapply recognised_nonempty; [by eapply textual_body | done | done].
Qed.

Lemma empty_plate_not_detected data :
  number_plate data = Js.Str "" → plate_detected data = false.
Proof. unfold plate_detected. by intros ->. Qed.

(** C6, as amended.  For answers whose [number_plate] is a string when
    present, the script never makes the plate display empty: every event
    leaves the text as it was or writes a text that is not empty, so along
    every run of the page a non-empty display stays non-empty; [clearAll]
    writes the waiting message; an upload with a file chosen and a capture
    with the camera on leave a non-empty text that is the no-plate message,
    the handler's error message or the recognised plate of the answer; and
    an answer whose [number_plate] is the empty string is never shown as a
    plate: it ends in the no-plate outcome, or, on the upload path when its
    status is not ok, in the error state. *)
Theorem plate_display_never_empty :
  (∀ ev st,
     textual_event ev →
     plate_text (step st ev) = plate_text st ∨ plate_text (step st ev) ≠ "")
  ∧ (∀ evs st,
       Forall textual_event evs →
       plate_text st ≠ "" → plate_text (run evs st) ≠ "")
  ∧ (∀ st, plate_text (exec clearAll st) = "Waiting for detection...")
  ∧ (∀ answer clock st,
       textual_answer answer →
       files (elem "fileInput" st) ≠ [] →
       let st' := exec (uploadImage answer clock) st in
       plate_text st' ≠ "" ∧ shown "⚠️ Processing Error!" answer st')
  ∧ (∀ blob answer clock st,
       textual_answer answer →
       cameraStream st ≠ None →
       let st' := exec (captureFromWebcam blob answer clock) st in
       plate_text st' ≠ "" ∧ shown "⚠️ Capture failed!" answer st')
  ∧ (∀ res data clock st,
       body res = BodyObject data → number_plate data = Js.Str "" →
       (files (elem "fileInput" st) ≠ [] →
          let st' := exec (uploadImage (FetchResolved res) clock) st in
          (ok res = true → no_plate_state st')
          ∧ (ok res = false →
             error_state "⚠️ Processing Error!" ".detect-btn" st'))
       ∧ (∀ bytes, cameraStream st ≠ None →
          no_plate_state
            (exec (captureFromWebcam (Some bytes) (FetchResolved res) clock)
               st))).
Proof.
  split_and!.
  - apply step_writes_text.
  - apply run_plate_text.
  - intros st. script_unfold. by page_simpl.
  - intros answer clock st Ht Hf st'.
    pose proof (uploadImage_shown answer clock st Ht Hf) as Hs.
    split; [eapply shown_nonempty; [exact Ht | | exact Hs]; done | exact Hs].
  - intros blob answer clock st Ht Hc st'.
    pose proof (captureFromWebcam_shown blob answer clock st Ht Hc) as Hs.
    split; [eapply shown_nonempty; [exact Ht | | exact Hs]; done | exact Hs].
  - intros res data clock st Hb He.
    apply empty_plate_not_detected in He. split.
    + intros Hf st'.
      pose proof (uploadImage_settled (FetchResolved res) clock st Hf)
        as [_ Hs].
      fold st' in Hs. cbn [upload_outcome] in Hs. split.
      * intros Hok. unfold read_body in Hs. rewrite Hok, Hb, He in Hs.
        apply Hs.
      * intros Hok. rewrite Hok in Hs. apply Hs.
    + intros bytes Hc.
      pose proof (captureFromWebcam_settled (Some bytes) (FetchResolved res)
                    clock st Hc) as [_ Hs].
      cbn [capture_outcome] in Hs. unfold read_body in Hs.
      rewrite Hb, He in Hs. apply Hs.
Qed.

Lemma plate_display_never_empty_witness :
  Forall textual_event
    [ UploadImage (FetchResolved (answer_200 empty_plate_payload))
        sample_clock;
      CaptureFromWebcam None FetchRejected sample_clock;
      ClearAll ]
  ∧ plate_text ready ≠ ""
  ∧ plate_text
      (run [ UploadImage (FetchResolved (answer_200 empty_plate_payload))
               sample_clock;
             CaptureFromWebcam None FetchRejected sample_clock;
             ClearAll ] ready) ≠ ""
  ∧ textual_answer (FetchResolved (answer_200 plate_payload))
  ∧ files (elem "fileInput" ready) ≠ []
  ∧ plate_text
      (exec (uploadImage (FetchResolved (answer_200 plate_payload))
               sample_clock) ready) ≠ ""
  ∧ cameraStream ready ≠ None
  ∧ plate_text
      (exec (captureFromWebcam (Some "JFIF")
               (FetchResolved (answer_200 plate_payload)) sample_clock)
         ready) ≠ ""
  ∧ no_plate_state
      (exec (uploadImage (FetchResolved (answer_200 empty_plate_payload))
               sample_clock) ready)
  ∧ error_state "⚠️ Processing Error!" ".detect-btn"
      (exec (uploadImage (FetchResolved (answer_500 empty_plate_payload))
               sample_clock) ready).
Proof.
  destruct plate_display_never_empty as (_ & Hrun & _ & Hup & Hcap & Hempty).
  assert (Hev : Forall textual_event
                  [ UploadImage
                      (FetchResolved (answer_200 empty_plate_payload))
                      sample_clock;
                    CaptureFromWebcam None FetchRejected sample_clock;
                    ClearAll ])
    by (repeat constructor).
  assert (Hne : plate_text ready ≠ "") by (vm_compute; discriminate).
  assert (Ht : textual_answer (FetchResolved (answer_200 plate_payload)))
    by exact I.
  split; [exact Hev |]. split; [exact Hne |].
  split; [exact (Hrun _ ready Hev Hne) |].
  split; [exact Ht |]. split; [exact ready_files |].
  split; [exact (proj1 (Hup _ sample_clock ready Ht ready_files)) |].
  split; [exact ready_camera |].
  split; [exact (proj1 (Hcap (Some "JFIF") _ sample_clock ready Ht
                          ready_camera)) |].
  split.
  - exact (proj1 (proj1 (Hempty (answer_200 empty_plate_payload)
                           empty_plate_payload sample_clock ready
                           eq_refl eq_refl) ready_files) eq_refl).
  - exact (proj2 (proj1 (Hempty (answer_500 empty_plate_payload)
                           empty_plate_payload sample_clock ready
                           eq_refl eq_refl) ready_files) eq_refl).
Defined.

Lemma upload_array_plate :
  upload_outcome sample_clock ready
    (FetchResolved (answer_200 array_plate_payload))
  = Detected array_plate_payload.
Proof. vm_compute. reflexivity. Qed.

Lemma capture_array_plate :
  capture_outcome sample_clock ready (Some "JFIF")
    (FetchResolved (answer_200 array_plate_payload))
  = Detected array_plate_payload.
Proof. vm_compute. reflexivity. Qed.

(** C6 as stated fails for an answer whose [number_plate] is no string:
    the empty array is truthy and differs from the sentinel, so an answer
    with status 200 and body [{"number_plate": []}] is taken for a
    detection, and [textContent = []] writes the empty string: the plate
    display is empty and marked as detected, on both paths. *)
Lemma empty_array_shown_as_plate :
  let upload :=
    exec (uploadImage (FetchResolved (answer_200 array_plate_payload))
            sample_clock) ready in
  let capture :=
    exec (captureFromWebcam (Some "JFIF")
            (FetchResolved (answer_200 array_plate_payload)) sample_clock)
      ready in
  files (elem "fileInput" ready) ≠ []
  ∧ cameraStream ready ≠ None
  ∧ plate_text ready ≠ ""
  ∧ delivers (answer_200 array_plate_payload) array_plate_payload
  ∧ number_plate array_plate_payload = Js.Array []
  ∧ plate_text upload = ""
  ∧ "detected" ∈ classList (elem "plateNumber" upload)
  ∧ disabled (elem "downloadBtn" upload) = false
  ∧ plate_text capture = ""
  ∧ "detected" ∈ classList (elem "plateNumber" capture).
Proof.
  intros upload capture.
  pose proof (uploadImage_settled
                (FetchResolved (answer_200 array_plate_payload))
                sample_clock ready ready_files) as [_ Hu].
  rewrite upload_array_plate in Hu.
  destruct Hu as [(Hut & Huc & _ & Hud & _) _].
  pose proof (captureFromWebcam_settled (Some "JFIF")
                (FetchResolved (answer_200 array_plate_payload))
                sample_clock ready ready_camera) as [_ Hc].
  rewrite capture_array_plate in Hc.
  destruct Hc as [(Hct & Hcc & _) _].
  split_and!; [exact ready_files | exact ready_camera
              | vm_compute; discriminate | split; reflexivity | reflexivity
              | | exact Huc | exact Hud | | exact Hcc].
  - change (Some "" = Some (plate_text upload)) in Hut. congruence.
  - change (Some "" = Some (plate_text capture)) in Hct. congruence.
Qed.

(** ** The validator (C7) *)

Lemma validate_some cfg o np :
  Validator.validate cfg o = Some np →
  Validator.plateText np = Validator.normalize cfg (Validator.rawText o)
  ∧ Validator.plateText np ≠ ""
  ∧ Validator.matches (Validator.plateFormatPattern cfg)
      (Validator.plateText np) = true.
Proof.
  unfold Validator.validate.
  destruct (Js.truthy_string _) eqn:Ht; [| done].
  destruct (Validator.matches _ _) eqn:Hm; [| done].
  intros [= <-]. cbn. split_and!; [done | by apply truthy_string_spec | done].
Qed.

(** C7.  The validator never accepts a plate that fails the configured
    pattern: a plate produced by [validate] is the normalized text and
    matches the pattern, a normalized text failing the pattern is rejected,
    and the plate accepted from a sequence of candidates matches the
    pattern as well. *)
Theorem validate_respects_pattern cfg :
  (∀ o np,
     Validator.validate cfg o = Some np →
     Validator.matches (Validator.plateFormatPattern cfg)
       (Validator.plateText np) = true
     ∧ Validator.plateText np
       = Validator.normalize cfg (Validator.rawText o))
  ∧ (∀ o,
       Validator.matches (Validator.plateFormatPattern cfg)
         (Validator.normalize cfg (Validator.rawText o)) = false →
       Validator.validate cfg o = None)
  ∧ (∀ os np,
       Validator.accept_first cfg os = Some np →
       Validator.matches (Validator.plateFormatPattern cfg)
         (Validator.plateText np) = true).
Proof.
  split_and!.
  - intros o np (Ht & _ & Hm)%validate_some. done.
  - intros o Hm. unfold Validator.validate. rewrite Hm.
    by rewrite andb_false_r.
  - intros os np. induction os as [|o os IH]; [done |]. cbn.
    destruct (Validator.validate cfg o) as [np'|] eqn:Hv; [| exact IH].
    intros [= <-]. by apply validate_some in Hv as (_ & _ & Hm).
Qed.

Lemma validate_respects_pattern_witness :
  Validator.validate Validator.sample_config Validator.seen
  = Some {| Validator.plateText := "TN09AB1234";
            Validator.plateConfidence := (93 # 100)%Q |}
  ∧ Validator.matches Validator.sample_pattern "TN09AB1234" = true
  ∧ Validator.matches Validator.sample_pattern
      (Validator.normalize Validator.sample_config "TN0?") = false
  ∧ Validator.validate Validator.sample_config Validator.blur = None.
Proof.
  destruct (validate_respects_pattern Validator.sample_config)
    as (Hok & Hrej & _).
  assert (Hv : Validator.validate Validator.sample_config Validator.seen
               = Some {| Validator.plateText := "TN09AB1234";
                         Validator.plateConfidence := (93 # 100)%Q |})
    by reflexivity.
  assert (Hm : Validator.matches
                 (Validator.plateFormatPattern Validator.sample_config)
                 (Validator.normalize Validator.sample_config
                    (Validator.rawText Validator.blur)) = false)
    by reflexivity.
  split; [exact Hv |].
  split; [exact (proj1 (Hok Validator.seen _ Hv)) |].
  split; [exact Hm | exact (Hrej Validator.blur Hm)].
Defined.

(** ** [clearAll] (C8) *)

(** C8.  After [clearAll] the file input is empty, the preview is blank
    and hidden, the plate display reads the waiting message and is no
    longer marked, the details are hidden and the download and detect
    buttons are disabled; the detection history and the store are
    untouched, as are the camera, the requests, the downloads and every
    other element of the page; one notification is added. *)
Theorem clearAll_frame st :
  let st' := exec clearAll st in
  files (elem "fileInput" st') = []
  ∧ src (elem "preview" st') = ""
  ∧ display (elem "preview" st') = "none"
  ∧ plate_text st' = "Waiting for detection..."
  ∧ ("detected" ∉ classList (elem "plateNumber" st'))
  ∧ display (elem "resultDetails" st') = "none"
  ∧ disabled (elem "downloadBtn" st') = true
  ∧ disabled (elem ".detect-btn" st') = true
  ∧ detectionHistory st' = detectionHistory st
  ∧ localStorage st' = localStorage st
  ∧ cameraStream st' = cameraStream st
  ∧ network st' = network st
  ∧ downloads st' = downloads st
  ∧ (∀ id, id ∉ cleared → elem id st' = elem id st)
  ∧ notifications st' =
    notifications st
      ++ [ {| message := "🗑️ All inputs and results cleared!";
              type := "info" |} ].
Proof.
  intros st'. subst st'. script_unfold.
  split_and!;
    try (page_simpl; first [reflexivity | apply class_removed]).
  intros id Hid. unfold cleared in Hid.
  rewrite !not_elem_of_cons in Hid.
  destruct Hid as (H1 & H2 & H3 & H4 & H5 & H6 & _).
  rewrite elem_with_notifications.
  by rewrite !elem_update_ne.
Qed.

Lemma clearAll_frame_witness :
  ("historyList" ∉ cleared)
  ∧ elem "historyList" (exec clearAll ready) = elem "historyList" ready
  ∧ files (elem "fileInput" ready) = [sample_file]
  ∧ files (elem "fileInput" (exec clearAll ready)) = [].
Proof.
  assert (Hid : "historyList" ∉ cleared).
  { unfold cleared. rewrite !not_elem_of_cons. split_and!; try discriminate.
    apply not_elem_of_nil. }
  pose proof (clearAll_frame ready) as Hframe. cbv zeta in Hframe.
  destruct Hframe as (Hfiles & _ & _ & _ & _ & _ & _ & _ & _ & _ & _ & _ & _
                      & Hother & _).
  split; [exact Hid |]. split; [exact (Hother "historyList" Hid) |].
  split; [reflexivity | exact Hfiles].
Defined.

(** ** [uploadImage] without a file (C9) *)

(** C9.  With no file selected [uploadImage] only shows the warning: the
    state is the old one with that notification added, so no request goes
    out and the plate display, the result details, the download button and
    the history are as before. *)
Theorem uploadImage_without_file answer clock st :
  files (elem "fileInput" st) = [] →
  let st' := exec (uploadImage answer clock) st in
  st' = with_notifications
          (λ l, l ++ [ {| message := "⚠️ Please choose an image first!";
                          type := "warning" |} ]) st
  ∧ warned "⚠️ Please choose an image first!" st st'
  ∧ network st' = network st
  ∧ elem "plateNumber" st' = elem "plateNumber" st
  ∧ elem "resultDetails" st' = elem "resultDetails" st
  ∧ elem "downloadBtn" st' = elem "downloadBtn" st
  ∧ document st' = document st
  ∧ detectionHistory st' = detectionHistory st
  ∧ localStorage st' = localStorage st.
Proof.
  intros Hf st'. subst st'. rewrite (uploadImage_no_file _ _ _ Hf).
  split_and!; reflexivity.
Qed.

Lemma uploadImage_without_file_witness :
  files (elem "fileInput" (load_script sample_page ∅)) = []
  ∧ network (exec (uploadImage FetchRejected sample_clock)
               (load_script sample_page ∅)) = []
  ∧ plate_text (exec (uploadImage FetchRejected sample_clock)
                  (load_script sample_page ∅)) = "Waiting for detection...".
Proof.
  assert (Hf : files (elem "fileInput" (load_script sample_page ∅)) = [])
    by reflexivity.
  pose proof (uploadImage_without_file FetchRejected sample_clock
                (load_script sample_page ∅) Hf) as Hw.
  cbv zeta in Hw. destruct Hw as (_ & _ & Hnet & Hplate & _).
  split; [exact Hf |]. split; [exact Hnet |].
  unfold plate_text. rewrite Hplate. reflexivity.
Defined.

(** ** [downloadResult] (C10) *)

Lemma downloadable_spec text :
  downloadable text = true ↔ text ≠ "" ∧ ¬ has_marker text.
Proof.
  unfold downloadable, has_marker.
  rewrite !andb_true_iff, !negb_true_iff, truthy_string_spec.
  destruct (Js.includes text "Waiting"), (Js.includes text "No plate"),
    (Js.includes text "Detecting"), (Js.includes text "Error");
    intuition congruence.
Qed.

Lemma result_file_contents text clock :
  Js.includes (blob_text (result_file text clock)) text = true
  ∧ Js.includes (blob_text (result_file text clock)) (toLocaleString clock)
    = true.
Proof.
  cbn [blob_text result_file]. split; apply includes_spec.
  - by exists "Detected Number Plate: ",
              (Js.nl +:+ "Timestamp: " +:+ toLocaleString clock).
  - exists ("Detected Number Plate: " +:+ text +:+ Js.nl +:+ "Timestamp: "), "".
    by rewrite append_nil_r, !append_assoc.
Qed.

(** What [downloadResult] does, by the displayed text: no file and a
    warning when the text is empty or contains one of the four words; one
    text file with the text and the timestamp otherwise. *)
Lemma downloadResult_rule clock st :
  let text := plate_text st in
  let st' := exec (downloadResult clock) st in
  (text = "" ∨ has_marker text →
     downloads st' = downloads st
     ∧ warned "⚠️ No valid result to download!" st st')
  ∧ (text ≠ "" → ¬ has_marker text →
     downloads st' = downloads st ++ [ result_file text clock ]
     ∧ Js.includes (blob_text (result_file text clock)) text = true
     ∧ Js.includes (blob_text (result_file text clock))
         (toLocaleString clock) = true
     ∧ notifications st' =
       notifications st
         ++ [ {| message := "📥 Result downloaded successfully!";
                 type := "success" |} ]).
Proof.
  intros text st'. subst text st'. unfold warned. script_unfold.
  fold (plate_text st). split.
  - intros Hbad.
    destruct (downloadable (plate_text st)) eqn:Hd; [| by page_simpl].
    apply downloadable_spec in Hd as [Hne Hmark].
    destruct Hbad as [He | Hm]; [by apply Hne in He | by apply Hmark in Hm].
  - intros Hne Hmark.
    destruct (downloadable (plate_text st)) eqn:Hd.
    + pose proof (result_file_contents (plate_text st) clock) as [Ht Hts].
      split_and!; [by page_simpl | exact Ht | exact Hts | by page_simpl].
    + assert (downloadable (plate_text st) = true)
        by (by apply downloadable_spec).
      congruence.
Qed.

(** C10 fails for the texts of the capture path.  While a capture waits
    for its answer the plate display reads "Processing...", and after a
    capture that failed it reads "⚠️ Capture failed!"; neither contains one
    of the four words, so [downloadResult] writes them to a file as a
    detected number plate.  After a detection the download button stays
    enabled while the next capture is pending, so the file
    [Detected Number Plate: Processing...] is one click away.  The texts of
    the upload path, "Detecting..." and "⚠️ Processing Error!", are
    refused. *)
Theorem progress_text_downloaded :
  let failed := exec (captureFromWebcam None FetchRejected sample_clock) ready in
  let uploading := suspended uploadImage_loading plate_shown in
  plate_text plate_shown = "TN09AB1234"
  ∧ plate_text capture_pending = "Processing..."
  ∧ disabled (elem "downloadBtn" capture_pending) = false
  ∧ downloads (exec (downloadResult sample_clock) capture_pending)
    = downloads capture_pending
        ++ [ result_file "Processing..." sample_clock ]
  ∧ blob_text (result_file "Processing..." sample_clock)
    = "Detected Number Plate: Processing..." +:+ Js.nl
        +:+ "Timestamp: 1/1/2026, 10:00:00 AM"
  ∧ plate_text failed = "⚠️ Capture failed!"
  ∧ downloads (exec (downloadResult sample_clock) failed)
    = downloads failed ++ [ result_file "⚠️ Capture failed!" sample_clock ]
  ∧ plate_text uploading = "Detecting..."
  ∧ downloads (exec (downloadResult sample_clock) uploading)
    = downloads uploading.
Proof.
  intros failed uploading.
  pose proof (downloadResult_rule sample_clock capture_pending) as [_ Hp].
  pose proof (downloadResult_rule sample_clock failed) as [_ Hf].
  pose proof (downloadResult_rule sample_clock uploading) as [Hu _].
  cbv zeta in Hp, Hf, Hu.
  assert (Htp : plate_text capture_pending = "Processing...")
    by (vm_compute; reflexivity).
  assert (Htf : plate_text failed = "⚠️ Capture failed!")
    by (vm_compute; reflexivity).
  assert (Htu : plate_text uploading = "Detecting...")
    by (vm_compute; reflexivity).
  rewrite Htp in Hp. rewrite Htf in Hf. rewrite Htu in Hu.
  split_and!.
  - vm_compute. reflexivity.
  - exact Htp.
  - vm_compute. reflexivity.
  - apply Hp; [discriminate |].
    vm_compute. intros [H|[H|[H|H]]]; discriminate H.
  - reflexivity.
  - exact Htf.
  - apply Hf; [discriminate |].
    vm_compute. intros [H|[H|[H|H]]]; discriminate H.
  - exact Htu.
  - apply Hu. right. right; right; left. vm_compute. reflexivity.
Qed.

(** * Further properties of the script *)

(** ** Reading the network log and the console *)

Lemma network_with_detectionHistory v st :
  network (with_detectionHistory v st) = network st.
Proof. reflexivity. Qed.

Lemma network_with_localStorage f st :
  network (with_localStorage f st) = network st.
Proof. reflexivity. Qed.

Lemma network_with_notifications f st :
  network (with_notifications f st) = network st.
Proof. reflexivity. Qed.

Lemma network_with_network f st :
  network (with_network f st) = f (network st).
Proof. reflexivity. Qed.

Lemma network_with_console f st :
  network (with_console f st) = network st.
Proof. reflexivity. Qed.

Lemma console_with_detectionHistory v st :
  console (with_detectionHistory v st) = console st.
Proof. reflexivity. Qed.

Lemma console_with_localStorage f st :
  console (with_localStorage f st) = console st.
Proof. reflexivity. Qed.

Lemma console_with_notifications f st :
  console (with_notifications f st) = console st.
Proof. reflexivity. Qed.

Lemma console_with_network f st :
  console (with_network f st) = console st.
Proof. reflexivity. Qed.

Lemma console_with_console f st :
  console (with_console f st) = f (console st).
Proof. reflexivity. Qed.

Ltac read_log_step :=
  match goal with
  | |- context [network (update ?i ?f ?s)] =>
      rewrite (network_update i f s)
  | |- context [network (with_detectionHistory ?v ?s)] =>
      rewrite (network_with_detectionHistory v s)
  | |- context [network (with_localStorage ?f ?s)] =>
      rewrite (network_with_localStorage f s)
  | |- context [network (with_notifications ?f ?s)] =>
      rewrite (network_with_notifications f s)
  | |- context [network (with_network ?f ?s)] =>
      rewrite (network_with_network f s)
  | |- context [network (with_console ?f ?s)] =>
      rewrite (network_with_console f s)
  | |- context [console (update ?i ?f ?s)] =>
      rewrite (console_update i f s)
  | |- context [console (with_detectionHistory ?v ?s)] =>
      rewrite (console_with_detectionHistory v s)
  | |- context [console (with_localStorage ?f ?s)] =>
      rewrite (console_with_localStorage f s)
  | |- context [console (with_notifications ?f ?s)] =>
      rewrite (console_with_notifications f s)
  | |- context [console (with_network ?f ?s)] =>
      rewrite (console_with_network f s)
  | |- context [console (with_console ?f ?s)] =>
      rewrite (console_with_console f s)
  end.

Ltac read_log := repeat first [ read_step | read_log_step ]; cbv beta.

Lemma success_iff_added (X : gset string) :
  "success" = "success" ↔ "detected" ∈ {["detected"]} ∪ X.
Proof. split; [intros _; apply class_added | done]. Qed.

Lemma error_iff_removed (X : gset string) :
  "error" = "success" ↔ "detected" ∈ X ∖ {["detected"]}.
Proof.
  split; [discriminate |]. intros H. by apply class_removed in H.
Qed.

Ltac trace_log :=
  read_log; first [ read_done | rewrite app_nil_r; reflexivity ].

Ltac trace_notification :=
  eexists; split;
  [ read_log; reflexivity
  | cbn [type]; read_log;
    first [ apply success_iff_added | apply error_iff_removed ] ].

Ltac trace :=
  unfold traced, upload_request, capture_request;
  split; [| split; [| split; [| split]]];
  [ trace_log | trace_log | trace_log | trace_log | trace_notification ].

Lemma uploadImage_traced answer clock st f fs :
  files (elem "fileInput" st) = f :: fs →
  traced (upload_errors clock st answer) [ upload_request f ] ".detect-btn"
    st (exec (uploadImage answer clock) st).
Proof.
  intros Hfs. unfold upload_errors, read_errors.
  destruct answer as [|res]; [evaluate; trace |].
  destruct (ok res) eqn:Hok; [| evaluate; trace].
  destruct (body res) as [| |data] eqn:Hbody; [evaluate; trace .. |].
  destruct (plate_detected data) eqn:Hd; [| evaluate; trace].
  destruct (Js.text_of (number_plate data)) as [text|] eqn:Htext;
    [| evaluate; trace].
  destruct (storageBlocked st) eqn:Hb; [evaluate; trace |].
  destruct (history_html _) as [html|] eqn:Hh; evaluate; trace.
Qed.

Lemma captureFromWebcam_traced blob answer clock st :
  cameraStream st ≠ None →
  traced (capture_errors clock st blob answer)
    (match blob with Some bytes => [ capture_request bytes ] | None => [] end)
    "captureBtn" st (exec (captureFromWebcam blob answer clock) st).
Proof.
  intros Hc. destruct (cameraStream st) as [stream|] eqn:Hcs;
    [clear Hc | done].
  unfold capture_errors, read_errors.
  destruct blob as [bytes|]; [| evaluate; trace].
  destruct answer as [|res]; [evaluate; trace |].
  destruct (body res) as [| |data] eqn:Hbody; [evaluate; trace .. |].
  destruct (plate_detected data) eqn:Hd; [| evaluate; trace].
  destruct (Js.text_of (number_plate data)) as [text|] eqn:Htext;
    [| evaluate; trace].
  destruct (storageBlocked st) eqn:Hb; [evaluate; trace |].
  destruct (history_html _) as [html|] eqn:Hh; evaluate; trace.
Qed.

(** ** Requests *)

(** X1.  With the camera off [captureFromWebcam] only shows its warning:
    the state is the old one with that notification added, so no request
    goes out and the page, the history and the store are as before. *)
Theorem captureFromWebcam_without_camera blob answer clock st :
  cameraStream st = None →
  let st' := exec (captureFromWebcam blob answer clock) st in
  st' = with_notifications
          (λ l, l ++ [ {| message := "⚠️ Please enable camera first!";
                          type := "warning" |} ]) st
  ∧ network st' = network st
  ∧ document st' = document st
  ∧ detectionHistory st' = detectionHistory st
  ∧ localStorage st' = localStorage st.
Proof.
  intros Hc st'. subst st'. rewrite (captureFromWebcam_no_camera _ _ _ _ Hc).
  split_and!; reflexivity.
Qed.

Lemma captureFromWebcam_without_camera_witness :
  cameraStream (load_script sample_page ∅) = None
  ∧ network (exec (captureFromWebcam (Some "JFIF") FetchRejected sample_clock)
               (load_script sample_page ∅)) = [].
Proof.
  assert (Hc : cameraStream (load_script sample_page ∅) = None)
    by reflexivity.
  pose proof (captureFromWebcam_without_camera (Some "JFIF") FetchRejected
                sample_clock (load_script sample_page ∅) Hc) as Hw.
  cbv zeta in Hw. destruct Hw as (_ & Hnet & _).
  split; [exact Hc | exact Hnet].
Defined.

(** X2.  With files chosen [uploadImage] issues exactly one request,
    whatever the answer: a POST to [/upload] whose single part is the first
    chosen file; further files are never sent. *)
Theorem uploadImage_sends_first_file answer clock st f fs :
  files (elem "fileInput" st) = f :: fs →
  network (exec (uploadImage answer clock) st)
  = network st ++ [ upload_request f ].
Proof. intros Hf. by destruct (uploadImage_traced answer clock st f fs Hf). Qed.

Lemma uploadImage_sends_first_file_witness :
  files (elem "fileInput" ready) = [sample_file]
  ∧ network (exec (uploadImage FetchRejected sample_clock) ready)
    = network ready ++ [ upload_request sample_file ].
Proof.
  assert (Hf : files (elem "fileInput" ready) = [sample_file])
    by reflexivity.
  split; [exact Hf |].
  exact (uploadImage_sends_first_file FetchRejected sample_clock ready
           sample_file [] Hf).
Defined.

(** X3.  With the camera on [captureFromWebcam] issues a request exactly
    when the frame could be encoded: then it is one POST to [/upload] with
    the frame under the file name [capture.jpg], whatever the answer; with
    no blob nothing is sent. *)
Theorem captureFromWebcam_sends_frame blob answer clock st :
  cameraStream st ≠ None →
  network (exec (captureFromWebcam blob answer clock) st)
  = network st ++ match blob with
                  | Some bytes => [ capture_request bytes ]
                  | None => []
                  end.
Proof.
  intros Hc. by destruct (captureFromWebcam_traced blob answer clock st Hc).
Qed.

Lemma captureFromWebcam_sends_frame_witness :
  cameraStream ready ≠ None
  ∧ network (exec (captureFromWebcam None FetchRejected sample_clock) ready)
    = network ready ++ [].
Proof.
  split; [exact ready_camera |].
  exact (captureFromWebcam_sends_frame None FetchRejected sample_clock
           ready ready_camera).
Defined.

(** X4.  Whatever the answer, a request handler that got past its guard
    puts the label of its button back as it was and leaves the button
    enabled. *)
Theorem action_button_restored answer clock st :
  (files (elem "fileInput" st) ≠ [] →
     let st' := exec (uploadImage answer clock) st in
     innerHTML (elem ".detect-btn" st') = innerHTML (elem ".detect-btn" st)
     ∧ disabled (elem ".detect-btn" st') = false)
  ∧ (∀ blob, cameraStream st ≠ None →
     let st' := exec (captureFromWebcam blob answer clock) st in
     innerHTML (elem "captureBtn" st') = innerHTML (elem "captureBtn" st)
     ∧ disabled (elem "captureBtn" st') = false).
Proof.
  split.
  - intros Hf st'. split.
    + destruct (files (elem "fileInput" st)) as [|f fs] eqn:Hfs; [done |].
      by destruct (uploadImage_traced answer clock st f fs Hfs)
        as (_ & _ & H & _).
    + by destruct (uploadImage_settled answer clock st Hf).
  - intros blob Hc st'. split.
    + by destruct (captureFromWebcam_traced blob answer clock st Hc)
        as (_ & _ & H & _).
    + by destruct (captureFromWebcam_settled blob answer clock st Hc).
Qed.

Lemma action_button_restored_witness :
  files (elem "fileInput" ready) ≠ []
  ∧ innerHTML (elem ".detect-btn"
       (exec (uploadImage (FetchResolved (answer_200 plate_payload))
                sample_clock) ready))
    = innerHTML (elem ".detect-btn" ready).
Proof.
  split; [exact ready_files |].
  exact (proj1 (proj1 (action_button_restored
                          (FetchResolved (answer_200 plate_payload))
                          sample_clock ready) ready_files)).
Defined.

(** X5.  On the upload path the body of an answer with a non-ok status is
    never read: two such answers with the same status leave the very same
    state, whatever their bodies. *)
Theorem uploadImage_ignores_failed_body clock st res1 res2 :
  ok res1 = false →
  status res1 = status res2 →
  exec (uploadImage (FetchResolved res1) clock) st
  = exec (uploadImage (FetchResolved res2) clock) st.
Proof.
  intros Hok Hs.
  assert (Hok' : ok res2 = false) by (unfold ok in *; by rewrite <- Hs).
  script_unfold. destruct (files (elem "fileInput" st)); [reflexivity |].
  rewrite Hok, Hok', Hs. reflexivity.
Qed.

Lemma uploadImage_ignores_failed_body_witness :
  ok (answer_500 plate_payload) = false
  ∧ status (answer_500 plate_payload) = status (answer_500 error_payload)
  ∧ exec (uploadImage (FetchResolved (answer_500 plate_payload))
            sample_clock) ready
    = exec (uploadImage (FetchResolved (answer_500 error_payload))
              sample_clock) ready.
Proof.
  split; [reflexivity |]. split; [reflexivity |].
  exact (uploadImage_ignores_failed_body sample_clock ready
           (answer_500 plate_payload) (answer_500 error_payload)
           eq_refl eq_refl).
Defined.

(** X6.  Every call of a request handler shows exactly one notification;
    once the handler is past its guard the notification is a success
    exactly when the plate display ends up marked as detected, and before
    the guard it is the warning. *)
Theorem request_notifies_once answer clock st :
  (∃ n,
     notifications (exec (uploadImage answer clock) st)
     = notifications st ++ [n]
     ∧ (files (elem "fileInput" st) = [] → type n = "warning")
     ∧ (files (elem "fileInput" st) ≠ [] →
        type n = "success"
        ↔ "detected" ∈ classList
            (elem "plateNumber" (exec (uploadImage answer clock) st))))
  ∧ (∀ blob, ∃ n,
     notifications (exec (captureFromWebcam blob answer clock) st)
     = notifications st ++ [n]
     ∧ (cameraStream st = None → type n = "warning")
     ∧ (cameraStream st ≠ None →
        type n = "success"
        ↔ "detected" ∈ classList
            (elem "plateNumber"
               (exec (captureFromWebcam blob answer clock) st)))).
Proof.
  split.
  - destruct (files (elem "fileInput" st)) as [|f fs] eqn:Hfs.
    + rewrite (uploadImage_no_file _ _ _ Hfs). eexists.
      split_and!; [reflexivity | by intros _ | done].
    + destruct (uploadImage_traced answer clock st f fs Hfs)
        as (_ & _ & _ & _ & n & Hn & Hiff).
      exists n. split_and!; [done | done | by intros _].
  - intros blob. destruct (cameraStream st) as [s|] eqn:Hcs.
    + destruct (captureFromWebcam_traced blob answer clock st)
        as (_ & _ & _ & _ & n & Hn & Hiff); [by rewrite Hcs |].
      exists n. split_and!; [done | done | by intros _].
    + rewrite (captureFromWebcam_no_camera _ _ _ _ Hcs). eexists.
      split_and!; [reflexivity | by intros _ | done].
Qed.

Lemma request_notifies_once_witness :
  files (elem "fileInput" ready) ≠ []
  ∧ ∃ n,
      notifications (exec (uploadImage FetchRejected sample_clock) ready)
      = notifications ready ++ [n]
      ∧ (type n = "success"
         ↔ "detected" ∈ classList
             (elem "plateNumber"
                (exec (uploadImage FetchRejected sample_clock) ready))).
Proof.
  split; [exact ready_files |].
  destruct (proj1 (request_notifies_once FetchRejected sample_clock ready))
    as (n & Hn & _ & Hiff).
  exists n. split; [exact Hn | exact (Hiff ready_files)].
Defined.



(** ** The camera *)

(** X8.  [stopWebcam] does nothing at all while the camera is off; with
    the camera on it stops every track of the stream, forgets the stream,
    detaches it from the video element, shows the overlay and disables the
    capture and stop buttons.  Stopping twice is the same as stopping
    once, and after a stop a capture sends nothing. *)
Theorem stopWebcam_turns_camera_off st :
  (cameraStream st = None → exec stopWebcam st = st)
  ∧ (∀ s, cameraStream st = Some s →
       let st' := exec stopWebcam st in
       cameraStream st' = None
       ∧ stoppedTracks st' = stoppedTracks st ++ getTracks s
       ∧ srcObject (elem "webcam" st') = None
       ∧ display (elem "cameraOverlay" st') = "flex"
       ∧ textContent (elem "cameraOverlay" st') = "Camera Off"
       ∧ disabled (elem "captureBtn" st') = true
       ∧ disabled (elem "stopCamera" st') = true)
  ∧ exec stopWebcam (exec stopWebcam st) = exec stopWebcam st
  ∧ (∀ blob answer clock,
       network (exec (captureFromWebcam blob answer clock)
                  (exec stopWebcam st)) = network st).
Proof.
  split_and!.
  - intros Hc. script_unfold. by rewrite Hc.
  - intros s Hc. cbv zeta. script_unfold. rewrite Hc.
    split_and!; by page_simpl.
  - script_unfold. destruct (cameraStream st) as [s|] eqn:Hc.
    + by page_simpl.
    + by rewrite Hc.
  - intros blob answer clock. script_unfold.
    destruct (cameraStream st) as [s|] eqn:Hc.
    + by page_simpl.
    + by rewrite Hc.
Qed.

Lemma stopWebcam_turns_camera_off_witness :
  cameraStream ready = Some {| getTracks := [0%nat] |}
  ∧ stoppedTracks (exec stopWebcam ready) = [0%nat]
  ∧ cameraStream (load_script sample_page ∅) = None
  ∧ exec stopWebcam (load_script sample_page ∅) = load_script sample_page ∅.
Proof.
  destruct (stopWebcam_turns_camera_off ready) as (_ & Hon & _).
  destruct (stopWebcam_turns_camera_off (load_script sample_page ∅))
    as (Hoff & _).
  assert (Hc : cameraStream ready = Some {| getTracks := [0%nat] |})
    by reflexivity.
  split; [exact Hc |].
  split; [exact (proj1 (proj2 (Hon _ Hc))) |].
  split; [reflexivity | exact (Hoff eq_refl)].
Defined.

(** X9.  [initializeWebcam]: when the camera is granted the stream
    becomes the script's stream and the source of the video element, the
    overlay is hidden, the capture and stop buttons are enabled and a
    success is reported; when it is refused the script's stream and the
    capture button stay as they were, the overlay reads the camera error
    and an error is reported and logged.  Either way the start button ends
    enabled with the fixed label "📷 Start Camera". *)
Theorem initializeWebcam_outcomes granted st :
  let st' := exec (initializeWebcam granted) st in
  innerHTML (elem "startCamera" st') = "📷 Start Camera"
  ∧ disabled (elem "startCamera" st') = false
  ∧ match granted with
    | Some stream =>
        cameraStream st' = Some stream
        ∧ srcObject (elem "webcam" st') = Some stream
        ∧ display (elem "cameraOverlay" st') = "none"
        ∧ disabled (elem "captureBtn" st') = false
        ∧ disabled (elem "stopCamera" st') = false
        ∧ console st' = console st
        ∧ notifications st'
          = notifications st
              ++ [ {| message := "📷 Camera activated successfully!";
                      type := "success" |} ]
    | None =>
        cameraStream st' = cameraStream st
        ∧ elem "webcam" st' = elem "webcam" st
        ∧ elem "captureBtn" st' = elem "captureBtn" st
        ∧ elem "stopCamera" st' = elem "stopCamera" st
        ∧ textContent (elem "cameraOverlay" st') = "❌ Camera Error"
        ∧ console st' = console st ++ [TypeError]
        ∧ notifications st'
          = notifications st
              ++ [ {| message := "❌ Camera access denied or not available";
                      type := "error" |} ]
    end.
Proof.
  intros st'. subst st'. destruct granted as [stream|]; script_unfold.
  - split_and!; page_simpl; reflexivity.
  - split_and!; page_simpl; reflexivity.
Qed.

Lemma initializeWebcam_tracks granted st :
  stoppedTracks (exec (initializeWebcam granted) st) = stoppedTracks st.
Proof. script_unfold. destruct granted; page_simpl; reflexivity. Qed.

Lemma initializeWebcam_stream s st :
  cameraStream (exec (initializeWebcam (Some s)) st) = Some s.
Proof. script_unfold. page_simpl. reflexivity. Qed.

Lemma stopWebcam_tracks s st :
  cameraStream st = Some s →
  stoppedTracks (exec stopWebcam st) = stoppedTracks st ++ getTracks s.
Proof. intros Hc. script_unfold. rewrite Hc. page_simpl. reflexivity. Qed.

(** X10.  [initializeWebcam] never stops a track.  Starting the camera
    again while it is on replaces the stream without stopping the old one,
    so a later [stopWebcam] stops the tracks of the second stream only. *)
Theorem restarted_camera_leaks_stream s1 s2 st :
  stoppedTracks (exec (initializeWebcam (Some s2))
                   (exec (initializeWebcam (Some s1)) st))
  = stoppedTracks st
  ∧ stoppedTracks
      (exec stopWebcam
         (exec (initializeWebcam (Some s2))
            (exec (initializeWebcam (Some s1)) st)))
    = stoppedTracks st ++ getTracks s2.
Proof.
  split.
  - by rewrite !initializeWebcam_tracks.
  - rewrite (stopWebcam_tracks s2) by apply initializeWebcam_stream.
    by rewrite !initializeWebcam_tracks.
Qed.

(** ** The preview *)

(** X11.  [previewImage]: with no file chosen the preview is hidden and
    the detect button disabled; with a file chosen and its data URL read,
    the preview shows that URL and the detect button is enabled; with a
    file chosen whose read never completes nothing changes.  In no case
    does it touch the plate display, the file input, the history, the
    store, the network or the notifications. *)
Theorem previewImage_outcomes reader_result st :
  let st' := exec (previewImage reader_result) st in
  (files (elem "fileInput" st) = [] →
     display (elem "preview" st') = "none"
     ∧ src (elem "preview" st') = src (elem "preview" st)
     ∧ disabled (elem ".detect-btn" st') = true)
  ∧ (files (elem "fileInput" st) ≠ [] →
     match reader_result with
     | Some result =>
         src (elem "preview" st') = result
         ∧ display (elem "preview" st') = "block"
         ∧ disabled (elem ".detect-btn" st') = false
     | None => st' = st
     end)
  ∧ elem "plateNumber" st' = elem "plateNumber" st
  ∧ elem "fileInput" st' = elem "fileInput" st
  ∧ history_of st' = history_of st
  ∧ network st' = network st
  ∧ notifications st' = notifications st.
Proof.
  intros st'. subst st'. script_unfold.
  destruct (files (elem "fileInput" st)) as [|f fs] eqn:Hfs.
  - split; [| split; [intros H; by destruct H |]].
    + intros _. split_and!; page_simpl; reflexivity.
    + split_and!; page_simpl; reflexivity.
  - split; [intros H; discriminate H |].
    destruct reader_result as [result|].
    + split; [intros _; split_and!; page_simpl; reflexivity |].
      split_and!; page_simpl; reflexivity.
    + split; [intros _; reflexivity |]. split_and!; reflexivity.
Qed.

Lemma previewImage_outcomes_witness :
  files (elem "fileInput" (load_script sample_page ∅)) = []
  ∧ disabled (elem ".detect-btn"
       (exec (previewImage None) (load_script sample_page ∅))) = true
  ∧ files (elem "fileInput" ready) ≠ []
  ∧ src (elem "preview"
       (exec (previewImage (Some "data:image/png;base64,")) ready))
    = "data:image/png;base64,".
Proof.
  destruct (previewImage_outcomes None (load_script sample_page ∅))
    as (Hnone & _).
  destruct (previewImage_outcomes (Some "data:image/png;base64,") ready)
    as (_ & Hsome & _).
  assert (Hf : files (elem "fileInput" (load_script sample_page ∅)) = [])
    by reflexivity.
  split; [exact Hf |].
  split; [exact (proj2 (proj2 (Hnone Hf))) |].
  split; [exact ready_files |].
  exact (proj1 (Hsome ready_files)).
Defined.

(** ** The download button and the marked plate *)

Lemma settled_download o msg btn clock st st' :
  settled o msg btn clock st st' → download_matches_detection st'.
Proof.
  intros [_ Hs]. unfold download_matches_detection.
  destruct o as [data|data|data|].
  - destruct Hs as [(_ & Hc & Hd & Hb & _) _]. rewrite Hd, Hb. done.
  - destruct Hs as [(_ & Hc & Hd & Hb & _) _]. rewrite Hd, Hb.
    split; split; done.
  - destruct Hs as [(_ & Hc & Hd & Hb) _]. rewrite Hd, Hb.
    split; split; done.
  - destruct Hs as [(_ & Hc & Hd & Hb & _) _]. rewrite Hd, Hb.
    split; split; done.
Qed.

Lemma download_matches_same st st' :
  elem "downloadBtn" st' = elem "downloadBtn" st →
  elem "plateNumber" st' = elem "plateNumber" st →
  elem "resultDetails" st' = elem "resultDetails" st →
  download_matches_detection st → download_matches_detection st'.
Proof. unfold download_matches_detection. by intros -> -> ->. Qed.

Lemma step_download ev st :
  download_matches_detection st → download_matches_detection (step st ev).
Proof.
  intros Hst.
  destruct ev as [fs|blocked|r|answer clock|granted| |blob answer clock|clock| |].
  - apply (download_matches_same st); [| | | done];
      script_unfold; page_simpl; reflexivity.
  - exact Hst.
  - apply (download_matches_same st); [| | | done]; script_unfold;
      (destruct (files (elem "fileInput" st)); [| destruct r]);
      page_simpl; reflexivity.
  - destruct (files (elem "fileInput" st)) as [|f fs] eqn:Hf.
    + unfold step, handler. by rewrite uploadImage_no_file.
    + eapply settled_download, uploadImage_settled. by rewrite Hf.
  - apply (download_matches_same st); [| | | done]; script_unfold;
      destruct granted; page_simpl; reflexivity.
  - apply (download_matches_same st); [| | | done]; script_unfold;
      destruct (cameraStream st); page_simpl; reflexivity.
  - destruct (cameraStream st) as [s|] eqn:Hc.
    + eapply settled_download, captureFromWebcam_settled. by rewrite Hc.
    + unfold step, handler. by rewrite captureFromWebcam_no_camera.
  - apply (download_matches_same st); [| | | done]; script_unfold;
      destruct (downloadable _); page_simpl; reflexivity.
  - unfold download_matches_detection. script_unfold. page_simpl.
    split; split; try done; intros H; by apply class_removed in H.
  - apply (download_matches_same st); [| | | done]; script_unfold;
      (destruct (decide _); [| destruct (map_items _ _)]);
      page_simpl; reflexivity.
Qed.

(** X12.  Between handlers the download button is enabled exactly while
    the plate display is marked as detected, and the display is marked
    exactly while the result details are shown: a request handler that got
    past its guard ends that way, and every event of the page keeps it.
    It does not hold while a capture is pending: the loading state takes
    the mark away and leaves the button enabled. *)
Theorem download_follows_detection :
  (∀ answer clock st,
     files (elem "fileInput" st) ≠ [] →
     download_matches_detection (exec (uploadImage answer clock) st))
  ∧ (∀ blob answer clock st,
       cameraStream st ≠ None →
       download_matches_detection
         (exec (captureFromWebcam blob answer clock) st))
  ∧ (∀ evs st,
       download_matches_detection st →
       download_matches_detection (run evs st))
  ∧ disabled (elem "downloadBtn" capture_pending) = false
  ∧ ("detected" ∉ classList (elem "plateNumber" capture_pending)).
Proof.
  split_and!.
  - intros answer clock st Hf.
    eapply settled_download. by apply uploadImage_settled.
  - intros blob answer clock st Hc.
    eapply settled_download. by apply captureFromWebcam_settled.
  - intros evs. induction evs as [|ev evs IH]; intros st Hst; [exact Hst |].
    cbn. apply IH. by apply step_download.
  - vm_compute. reflexivity.
  - vm_compute. intros H. discriminate H.
Qed.

Lemma download_follows_detection_witness :
  files (elem "fileInput" ready) ≠ []
  ∧ download_matches_detection
      (exec (uploadImage (FetchResolved (answer_200 plate_payload))
               sample_clock) ready)
  ∧ download_matches_detection
      (run [ ClearAll; StopWebcam;
             CaptureFromWebcam (Some "JFIF") FetchRejected sample_clock ]
         (exec (uploadImage (FetchResolved (answer_200 plate_payload))
                  sample_clock) ready)).
Proof.
  destruct download_follows_detection as (Hup & _ & Hrun & _).
  split; [exact ready_files |].
  split; [exact (Hup _ sample_clock ready ready_files) |].
  exact (Hrun _ _ (Hup _ sample_clock ready ready_files)).
Defined.

(** ** The history as a bounded stack *)

Lemma take_app_take {A} n (l m : list A) :
  take n (l ++ take n m) = take n (l ++ m).
Proof.
  rewrite !take_app, take_take. f_equal. f_equal. lia.
Qed.

Lemma addToHistory_item_history x st :
  detectionHistory (exec (addToHistory_item x) st)
  = take 10 (x :: detectionHistory st).
Proof.
  unfold addToHistory_item.
  pose proof (addToHistory_history (plate x) (item_confidence x)
                (processTime x) (timestamp x) st) as Hh.
  apply (f_equal fst) in Hh. cbn [fst history_of] in Hh. rewrite Hh.
  unfold pushed. by destruct x.
Qed.

(** X13.  The history is a stack cut at ten: after one or more calls of
    [addToHistory] it holds the entries added, latest first, followed by
    the entries that were there, cut at ten; the store may refuse writes
    and the list on the page may fail to render without changing this. *)
Theorem history_is_latest_first x items st :
  detectionHistory (add_all (x :: items) st)
  = take 10 (reverse (x :: items) ++ detectionHistory st).
Proof.
  revert x st. induction items as [|y items IH]; intros x st.
  - cbn [add_all foldl]. by rewrite addToHistory_item_history.
  - change (add_all (x :: y :: items) st)
      with (add_all (y :: items) (exec (addToHistory_item x) st)).
    rewrite IH, addToHistory_item_history, take_app_take.
    by rewrite (reverse_cons (y :: items) x), <- app_assoc.
Qed.

(** ** The history and the store *)

Lemma step_blocked ev st :
  store_open ev → storageBlocked st = false →
  storageBlocked (step st ev) = false.
Proof.
  intros Hev Hst.
  destruct ev as [fs|blocked|r|answer clock|granted| |blob answer clock|clock| |].
  - exact Hst.
  - exact Hev.
  - rewrite <- Hst. script_unfold.
    destruct (files (elem "fileInput" st)); [| destruct r]; reflexivity.
  - destruct (files (elem "fileInput" st)) as [|f fs] eqn:Hf.
    + unfold step, handler. by rewrite uploadImage_no_file.
    + destruct (uploadImage_traced answer clock st f fs Hf)
        as (_ & _ & _ & H & _).
      unfold step, handler. by rewrite H.
  - rewrite <- Hst. script_unfold. destruct granted; reflexivity.
  - rewrite <- Hst. script_unfold. destruct (cameraStream st); reflexivity.
  - destruct (cameraStream st) as [s|] eqn:Hc.
    + destruct (captureFromWebcam_traced blob answer clock st)
        as (_ & _ & _ & H & _); [by rewrite Hc |].
      unfold step, handler. by rewrite H.
    + unfold step, handler. by rewrite captureFromWebcam_no_camera.
  - rewrite <- Hst. script_unfold. destruct (downloadable _); reflexivity.
  - exact Hst.
  - rewrite <- Hst. script_unfold. destruct (decide _); [reflexivity |].
    destruct (map_items _ _); reflexivity.
Qed.

Lemma history_in_store_same st st' :
  history_of st' = history_of st → history_in_store st → history_in_store st'.
Proof. unfold history_of, history_in_store. by intros [= -> ->]. Qed.

Lemma settled_in_store o msg btn clock st st' :
  storageBlocked st = false →
  settled o msg btn clock st st' →
  history_in_store st → history_in_store st'.
Proof.
  intros Hb [_ Hs] Hst. destruct o as [data|data|data|].
  - destruct Hs as (_ & _ & [= Hh Hl]). unfold history_in_store.
    by rewrite Hh, Hl, lookup_insert_eq.
  - destruct Hs as (_ & Hh & Hl). rewrite Hb in Hl. unfold history_in_store.
    by rewrite Hh, Hl, lookup_insert_eq.
  - destruct Hs as [_ Hs]. by eapply history_in_store_same.
  - destruct Hs as [_ Hs]. by eapply history_in_store_same.
Qed.

Lemma step_in_store ev st :
  storageBlocked st = false →
  history_in_store st → history_in_store (step st ev).
Proof.
  intros Hb Hst.
  destruct ev as [fs|blocked|r|answer clock|granted| |blob answer clock|clock| |].
  - exact Hst.
  - exact Hst.
  - apply (history_in_store_same st); [| done]. script_unfold.
    destruct (files (elem "fileInput" st)); [| destruct r]; reflexivity.
  - destruct (files (elem "fileInput" st)) as [|f fs] eqn:Hf.
    + unfold step, handler. by rewrite uploadImage_no_file.
    + eapply settled_in_store; [done | | done].
      apply uploadImage_settled. by rewrite Hf.
  - apply (history_in_store_same st); [| done]. script_unfold.
    destruct granted; reflexivity.
  - apply (history_in_store_same st); [| done]. script_unfold.
    destruct (cameraStream st); reflexivity.
  - destruct (cameraStream st) as [s|] eqn:Hc.
    + eapply settled_in_store; [done | | done].
      apply captureFromWebcam_settled. by rewrite Hc.
    + unfold step, handler. by rewrite captureFromWebcam_no_camera.
  - apply (history_in_store_same st); [| done]. script_unfold.
    destruct (downloadable _); reflexivity.
  - exact Hst.
  - apply (history_in_store_same st); [| done]. script_unfold.
    destruct (decide _); [reflexivity |].
    destruct (map_items _ _); reflexivity.
Qed.

(** X14.  A freshly loaded page holds the history that is in the store,
    and as long as the store accepts writes every event keeps the two the
    same; once the store refuses a write they part: the script's history
    gets the new entry, the store does not. *)
Theorem history_mirrors_store :
  (∀ page storage, history_in_store (load_script page storage))
  ∧ (∀ evs st,
       Forall store_open evs →
       storageBlocked st = false →
       history_in_store st →
       storageBlocked (run evs st) = false
       ∧ history_in_store (run evs st))
  ∧ ¬ history_in_store
        (exec (uploadImage (FetchResolved (answer_200 plate_payload))
                 sample_clock) ready_but_blocked).
Proof.
  split_and!.
  - intros page storage. reflexivity.
  - intros evs st Hall. revert st.
    induction Hall as [|ev evs Hev _ IH]; intros st Hb Hst; [done |].
    cbn. apply IH; [by apply step_blocked | by apply step_in_store].
  - intros H. vm_compute in H. discriminate H.
Qed.

Lemma history_mirrors_store_witness :
  Forall store_open
    [ UploadImage (FetchResolved (answer_200 plate_payload)) sample_clock;
      ClearAll;
      CaptureFromWebcam (Some "JFIF")
        (FetchResolved (answer_200 plate_payload)) sample_clock ]
  ∧ storageBlocked ready = false
  ∧ history_in_store ready
  ∧ history_in_store
      (run [ UploadImage (FetchResolved (answer_200 plate_payload))
               sample_clock;
             ClearAll;
             CaptureFromWebcam (Some "JFIF")
               (FetchResolved (answer_200 plate_payload)) sample_clock ]
         ready).
Proof.
  destruct history_mirrors_store as (_ & Hrun & _).
  assert (Hev : Forall store_open
                  [ UploadImage (FetchResolved (answer_200 plate_payload))
                      sample_clock;
                    ClearAll;
                    CaptureFromWebcam (Some "JFIF")
                      (FetchResolved (answer_200 plate_payload))
                      sample_clock ])
    by (repeat constructor).
  assert (Hst : history_in_store ready) by reflexivity.
  split; [exact Hev |]. split; [reflexivity |]. split; [exact Hst |].
  exact (proj2 (Hrun _ ready Hev eq_refl Hst)).
Defined.
